(** * Real Digital DRM HDMI encoder: capability negotiation

    A shallow embedding of [drivers/gpu/drm/xilinx/rd_drm_hdmi.c] and the
    properties of its mode validator, connection detector, mode source,
    device-tree resolver and power callbacks.

    The driver is a thin layer over the DRM core, the OF (device tree) core
    and the I2C core.  Those are not part of the driver's sources; what the
    driver needs of them is gathered in two interfaces below
    ([drm_mode_flags] for the flag bits, [platform] for the hardware and
    the tables behind the helper calls), and every helper is a small
    definition of its own so that the driver functions read like the C. *)

From Stdlib Require Import ZArith Lia.
From stdpp Require Import gmap strings list.

Local Open Scope Z_scope.

(** ** C integers *)

Definition U32_MODULUS : Z := 2 ^ 32.
Definition INT_MAX : Z := 2 ^ 31 - 1.
Definition U32_MAX : Z := 2 ^ 32 - 1.

(** Conversion of an [int] operand to [unsigned int]: what the usual
    arithmetic conversions do to [mode->clock], [mode->hdisplay] and
    [mode->vdisplay] when they are compared with a [u32] limit. *)
Definition to_u32 (x : Z) : Z := x mod U32_MODULUS.

(** Conversion of a [u32] value to [int]: what happens to the envelope's
    sizes when they are passed to the [int] parameters of
    [drm_add_modes_noedid] and [drm_set_preferred_mode].  Values up to
    [INT_MAX] arrive unchanged, larger ones arrive negative. *)
Definition u32_to_int (v : Z) : Z :=
  if v <=? INT_MAX then v else v - U32_MODULUS.

Lemma to_u32_id x : 0 <= x <= U32_MAX -> to_u32 x = x.
Proof. unfold to_u32, U32_MODULUS, U32_MAX. intros ?. apply Z.mod_small. lia. Qed.

(** ** Data model *)

(** [struct rd_drm_hdmi_config]: the five [u32] limits read from the DTS. *)
Record rd_drm_hdmi_config := {
  max_pclock : Z;
  max_horz_res : Z;
  max_vert_res : Z;
  pref_horz_res : Z;
  pref_vert_res : Z;
}.

(** [struct drm_display_mode] (declared by the DRM core): the timing fields
    are C [int]s, [flags] is an [unsigned int] bit set. *)
Record drm_display_mode := {
  clock : Z;
  hdisplay : Z;
  hsync_start : Z;
  hsync_end : Z;
  htotal : Z;
  vdisplay : Z;
  vsync_start : Z;
  vsync_end : Z;
  vtotal : Z;
  flags : Z;
}.

(** The flag bits tested by the driver.  Their values live in the DRM
    user-space API header; the driver only ever masks with them, so they
    are kept abstract. *)
Class drm_mode_flags := {
  DRM_MODE_FLAG_INTERLACE : Z;
  DRM_MODE_FLAG_DBLCLK : Z;
  DRM_MODE_FLAG_3D_MASK : Z;
}.

(** The members of [enum drm_mode_status] the driver returns. *)
Inductive drm_mode_status :=
  | MODE_OK
  | MODE_CLOCK_HIGH
  | MODE_PANEL
  | MODE_NO_INTERLACE
  | MODE_BAD.

(** [enum drm_connector_status]. *)
Inductive drm_connector_status :=
  | connector_status_connected
  | connector_status_disconnected
  | connector_status_unknown.

(** Handles owned by other subsystems. *)
Definition i2c_adapter := N.
Definition drm_device := N.
Definition phandle := N.

(** [struct device_node]: the [u32] properties and the phandle references
    of the encoder's node, by property name. *)
Record device_node := {
  properties : gmap string Z;
  phandles : gmap string phandle;
}.

Record device := { of_node : device_node }.

Record drm_encoder := { drm_dev : drm_device }.

(** [struct rd_drm_hdmi].  [encoder] is NULL between probe and encoder
    init, [i2c_hdmi] is NULL when no EDID bus is configured. *)
Record rd_drm_hdmi := {
  encoder : option drm_encoder;
  dev : device;
  config : rd_drm_hdmi_config;
  i2c_hdmi : option i2c_adapter;
}.

(** [struct drm_connector], as far as the mode helpers touch it: the list
    of probed modes, the EDID property blob and the preferred size asked
    for by [drm_set_preferred_mode]. *)
Definition edid := list Z.

Record drm_connector := {
  probed_modes : list drm_display_mode;
  edid_blob : option edid;
  preferred : option (Z * Z);
}.

(** The two messages the driver prints with [DRM_INFO]. *)
Inductive drm_info_msg :=
  | No_value_using_default (rd_param : string) (def : Z)
  | I2C_interface_not_found.

(** What the driver does to the rest of the kernel, in program order. *)
Inductive kevent :=
  | DRM_INFO (msg : drm_info_msg)
  | DDC_PROBE (adap : i2c_adapter)
  | EDID_READ (adap : i2c_adapter)
  | HPD_IRQ_EVENT (d : drm_device)
  | OF_NODE_PUT (np : phandle)
  | KFREE_EDID (e : edid).

(** The hardware and the tables behind the helper calls. *)
Record platform := {
  (** the standard (DMT) timing table of the DRM core *)
  drm_dmt_modes : list drm_display_mode;
  (** return value of the DDC probe on a bus *)
  ddc_probe_result : i2c_adapter -> Z;
  (** the EDID a display hands out on a bus, if any *)
  edid_on_bus : i2c_adapter -> option edid;
  (** the modes an EDID declares (the EDID parser) *)
  edid_declared_modes : edid -> list drm_display_mode;
  (** registered I2C adapters, by device-tree node *)
  i2c_adapter_of_node : gmap phandle i2c_adapter;
}.

(** ** Kernel state and the monad the driver runs in *)

Record kstate := {
  drvdata : rd_drm_hdmi;        (** [*dp], the driver's private data *)
  connector : drm_connector;    (** [*connector] *)
  klog : list kevent;           (** calls into the kernel so far *)
}.

(** A call either returns, or dereferences a NULL pointer. *)
Inductive outcome (A : Type) :=
  | Done (a : A) (s : kstate)
  | Oops.
Arguments Done {A} a s.
Arguments Oops {A}.

Definition kernel (A : Type) : Type := kstate -> outcome A.

Definition ret {A} (a : A) : kernel A := fun s => Done a s.

Definition bind {A B} (m : kernel A) (k : A -> kernel B) : kernel B :=
  fun s => match m s with
           | Done a s' => k a s'
           | Oops => Oops
           end.

Notation "x <- m ;; k" := (bind m (fun x => k))
  (at level 100, m at next level, k at level 200, right associativity).
Notation "m ;;; k" := (bind m (fun _ => k))
  (at level 100, k at level 200, right associativity).

Definition oops {A} : kernel A := fun _ => Oops.

Definition gets {A} (f : kstate -> A) : kernel A := fun s => Done (f s) s.

Definition modify (f : kstate -> kstate) : kernel unit :=
  fun s => Done tt (f s).

Definition emit (e : kevent) : kernel unit :=
  modify (fun s => {| drvdata := s.(drvdata); connector := s.(connector);
                      klog := s.(klog) ++ [e] |}).

Definition modify_dp (f : rd_drm_hdmi -> rd_drm_hdmi) : kernel unit :=
  modify (fun s => {| drvdata := f s.(drvdata); connector := s.(connector);
                      klog := s.(klog) |}).

Definition modify_connector (f : drm_connector -> drm_connector) : kernel unit :=
  modify (fun s => {| drvdata := s.(drvdata); connector := f s.(connector);
                      klog := s.(klog) |}).

Definition modify_config (f : rd_drm_hdmi_config -> rd_drm_hdmi_config)
  : kernel unit :=
  modify_dp (fun dp => {| encoder := dp.(encoder); dev := dp.(dev);
                          config := f dp.(config);
                          i2c_hdmi := dp.(i2c_hdmi) |}).

(** [to_dp(encoder)] and [dev_get_drvdata(dev)] both fetch [dp]. *)
Definition to_dp : kernel rd_drm_hdmi := gets drvdata.
Definition dev_get_drvdata : kernel rd_drm_hdmi := gets drvdata.

(** Final state and return value of a call, if it returned. *)
Definition final_state {A} (o : outcome A) : option kstate :=
  match o with Done _ s => Some s | Oops => None end.
Definition result {A} (o : outcome A) : option A :=
  match o with Done a _ => Some a | Oops => None end.

(** Errno values used below. *)
Definition EINVAL : Z := 22.
Definition ENOMEM : Z := 12.

(** ** Helpers of the DRM, OF and I2C cores called by the driver *)

(** Modelled from the spec: [of_property_read_u32] of the OF core, the
    lookup of a named parameter in the configuration store.  A present
    [u32] property is stored through the out pointer and 0 is returned; an
    absent one gives a negative errno and leaves the out value alone. *)
Definition of_property_read_u32 (np : device_node) (propname : string)
    (out_value : Z) : Z * Z :=
  match np.(properties) !! propname with
  | Some v => (0, v)
  | None => (- EINVAL, out_value)
  end.

(** Modelled from the spec: [of_parse_phandle] of the OF core, the
    optional reference to the node of the auxiliary-channel adapter. *)
Definition of_parse_phandle (np : device_node) (phandle_name : string)
    (index : Z) : option phandle :=
  if index =? 0 then np.(phandles) !! phandle_name else None.

(** [of_node_put]: drops the reference taken by [of_parse_phandle]. *)
Definition of_node_put (np : phandle) : kernel unit := emit (OF_NODE_PUT np).

(** [strcat] into the 40-byte buffer [rd_param]. *)
Definition strcat (dest src : string) : string := String.append dest src.
Definition RD_PARAM_SIZE : nat := 40.

Definition drm_info (msg : drm_info_msg) : kernel unit := emit (DRM_INFO msg).

Definition kfree (e : edid) : kernel unit := emit (KFREE_EDID e).

Section Helpers.
Variable hw : platform.

(** Modelled from the spec: [of_find_i2c_adapter_by_node] of the I2C
    core, the adapter registered for a node, if there is one. *)
Definition of_find_i2c_adapter_by_node (np : phandle) : option i2c_adapter :=
  hw.(i2c_adapter_of_node) !! np.

(** Modelled from the spec: [drm_probe_ddc] of the DRM core, the
    lightweight presence probe over the display data channel.  The
    probe is the only thing that happens. *)
Definition drm_probe_ddc (adap : i2c_adapter) : kernel Z :=
  emit (DDC_PROBE adap) ;;;
  ret (hw.(ddc_probe_result) adap).

(** Modelled from the spec: [drm_get_edid] of the DRM core, the read of
    the full capability descriptor; NULL when the read fails or returns
    no data. *)
Definition drm_get_edid (adap : i2c_adapter) : kernel (option edid) :=
  emit (EDID_READ adap) ;;;
  ret (hw.(edid_on_bus) adap).

(** Modelled from the spec: [drm_mode_connector_update_edid_property] of
    the DRM core, which exposes the EDID blob to the connector layer. *)
Definition drm_mode_connector_update_edid_property (e : edid)
  : kernel unit :=
  modify_connector (fun c =>
    {| probed_modes := c.(probed_modes); edid_blob := Some e;
       preferred := c.(preferred) |}).

Definition drm_mode_probed_add (ms : list drm_display_mode) : kernel unit :=
  modify_connector (fun c =>
    {| probed_modes := c.(probed_modes) ++ ms; edid_blob := c.(edid_blob);
       preferred := c.(preferred) |}).

(** Modelled from the spec: [drm_add_edid_modes] of the DRM core, the
    external EDID parser: the modes the descriptor declares are added to
    the connector and counted. *)
Definition drm_add_edid_modes (e : edid) : kernel Z :=
  let ms := hw.(edid_declared_modes) e in
  drm_mode_probed_add ms ;;;
  ret (Z.of_nat (length ms)).

(** The entries of a timing table that fit in [hdisplay] x [vdisplay]. *)
Definition mode_fits (h v : Z) (m : drm_display_mode) : bool :=
  (m.(hdisplay) <=? h) && (m.(vdisplay) <=? v).

(** Modelled from the spec: [drm_add_modes_noedid] of the DRM core, which
    synthesizes a mode list bounded by [hdisplay] x [vdisplay] from the
    fixed standard timing table, adds it to the connector and returns the
    number of modes added. *)
Definition drm_add_modes_noedid (hdisplay vdisplay : Z) : kernel Z :=
  let ms := List.filter (mode_fits hdisplay vdisplay) hw.(drm_dmt_modes) in
  drm_mode_probed_add ms ;;;
  ret (Z.of_nat (length ms)).

(** Modelled from the spec: [drm_set_preferred_mode] of the DRM core,
    which sets the preferred mode to [hpref] x [vpref]. *)
Definition drm_set_preferred_mode (hpref vpref : Z) : kernel unit :=
  modify_connector (fun c =>
    {| probed_modes := c.(probed_modes); edid_blob := c.(edid_blob);
       preferred := Some (hpref, vpref) |}).

(** Modelled from the spec: [drm_helper_hpd_irq_event] of the DRM core,
    the hot-plug notification that makes the display pipeline
    re-evaluate the connection. *)
Definition drm_helper_hpd_irq_event (d : drm_device) : kernel unit :=
  emit (HPD_IRQ_EVENT d).

End Helpers.

(** ** The driver *)

Definition DEF_PIXCLK : Z := 150000.
Definition DEF_MAX_HORZ : Z := 1920.
Definition DEF_MAX_VERT : Z := 1080.
Definition DEF_PREF_HORZ : Z := 1280.
Definition DEF_PREF_VERT : Z := 720.

(** Assignments to the members of [dp] and [dp->config]. *)
Definition set_encoder (e : option drm_encoder) (dp : rd_drm_hdmi) :=
  {| encoder := e; dev := dp.(dev); config := dp.(config);
     i2c_hdmi := dp.(i2c_hdmi) |}.
Definition set_i2c_hdmi (a : option i2c_adapter) (dp : rd_drm_hdmi) :=
  {| encoder := dp.(encoder); dev := dp.(dev); config := dp.(config);
     i2c_hdmi := a |}.
Definition set_max_pclock (v : Z) (c : rd_drm_hdmi_config) :=
  {| max_pclock := v; max_horz_res := c.(max_horz_res);
     max_vert_res := c.(max_vert_res); pref_horz_res := c.(pref_horz_res);
     pref_vert_res := c.(pref_vert_res) |}.
Definition set_max_horz_res (v : Z) (c : rd_drm_hdmi_config) :=
  {| max_pclock := c.(max_pclock); max_horz_res := v;
     max_vert_res := c.(max_vert_res); pref_horz_res := c.(pref_horz_res);
     pref_vert_res := c.(pref_vert_res) |}.
Definition set_max_vert_res (v : Z) (c : rd_drm_hdmi_config) :=
  {| max_pclock := c.(max_pclock); max_horz_res := c.(max_horz_res);
     max_vert_res := v; pref_horz_res := c.(pref_horz_res);
     pref_vert_res := c.(pref_vert_res) |}.
Definition set_pref_horz_res (v : Z) (c : rd_drm_hdmi_config) :=
  {| max_pclock := c.(max_pclock); max_horz_res := c.(max_horz_res);
     max_vert_res := c.(max_vert_res); pref_horz_res := v;
     pref_vert_res := c.(pref_vert_res) |}.
Definition set_pref_vert_res (v : Z) (c : rd_drm_hdmi_config) :=
  {| max_pclock := c.(max_pclock); max_horz_res := c.(max_horz_res);
     max_vert_res := c.(max_vert_res); pref_horz_res := c.(pref_horz_res);
     pref_vert_res := v |}.

(** C truth value of [flags & mask]. *)
Definition flag_set (fl mask : Z) : bool := negb (Z.land fl mask =? 0).

Section Driver.
Context {F : drm_mode_flags}.
Variable hw : platform.

Definition rd_drm_hdmi_dpms (dpms : Z) : kernel unit :=
  ret tt (* no op *).

Definition rd_drm_hdmi_save : kernel unit :=
  ret tt (* no op *).

Definition rd_drm_hdmi_restore : kernel unit :=
  ret tt (* no op *).

(** [adjusted_mode] is an in/out argument: the mode behind the pointer
    after the call is returned next to the [bool]. *)
Definition rd_drm_hdmi_mode_fixup (mode adjusted_mode : drm_display_mode)
  : kernel (bool * drm_display_mode) :=
  ret (true, adjusted_mode).

Definition rd_drm_hdmi_mode_valid (mode : option drm_display_mode)
  : kernel drm_mode_status :=
  dp <- to_dp ;;
  let max_pclock := dp.(config).(max_pclock) in
  match mode with
  | None => ret MODE_BAD
  | Some mode =>
    if to_u32 mode.(clock) >? max_pclock then ret MODE_CLOCK_HIGH
    else if (to_u32 mode.(hdisplay) >? dp.(config).(max_horz_res)) ||
            (to_u32 mode.(vdisplay) >? dp.(config).(max_vert_res))
    then ret MODE_PANEL
    else if flag_set mode.(flags) DRM_MODE_FLAG_INTERLACE
    then ret MODE_NO_INTERLACE
    else if flag_set mode.(flags)
              (Z.lor DRM_MODE_FLAG_DBLCLK DRM_MODE_FLAG_3D_MASK)
    then ret MODE_BAD
    else ret MODE_OK
  end.

Definition rd_drm_hdmi_mode_set (mode adjusted_mode : drm_display_mode)
  : kernel unit :=
  ret tt (* no op *).

Definition rd_drm_hdmi_detect : kernel drm_connector_status :=
  dp <- to_dp ;;
  match dp.(i2c_hdmi) with
  | Some adap =>
    r <- drm_probe_ddc hw adap ;;
    if negb (r =? 0) then ret connector_status_connected
    else ret connector_status_disconnected
  | None => ret connector_status_unknown
  end.

Definition rd_drm_hdmi_get_modes : kernel Z :=
  dp <- to_dp ;;
  let config := dp.(config) in
  match dp.(i2c_hdmi) with
  | Some adap =>
    edid <- drm_get_edid hw adap ;;
    match edid with
    | None => ret 0
    | Some edid =>
      drm_mode_connector_update_edid_property edid ;;;
      r <- drm_add_edid_modes hw edid ;;
      kfree edid ;;;
      ret r
    end
  | None =>
    r <- drm_add_modes_noedid hw (u32_to_int config.(max_horz_res))
                                  (u32_to_int config.(max_vert_res)) ;;
    drm_set_preferred_mode (u32_to_int config.(pref_horz_res))
                           (u32_to_int config.(pref_vert_res)) ;;;
    ret r
  end.

(** [rd_of_read_u32].  [val] is uninitialised until the helper or the
    default branch writes it; a name that does not fit the 40-byte
    buffer (with its terminating NUL) overruns it. *)
Definition rd_of_read_u32 (node : device_node) (param : string) (def : Z)
  : kernel Z :=
  let rd_param := strcat "realdigital," param in
  if (RD_PARAM_SIZE <=? String.length rd_param)%nat then oops
  else
    let '(r, val) := of_property_read_u32 node rd_param 0 in
    if r <? 0 then
      drm_info (No_value_using_default rd_param def) ;;;
      ret def
    else ret val.

Definition rd_drm_hdmi_parse_of : kernel Z :=
  dp <- to_dp ;;
  let node := dp.(dev).(of_node) in
  match of_parse_phandle node "realdigital,i2c-edid" 0 with
  | Some i2c_node =>
    let adap := of_find_i2c_adapter_by_node hw i2c_node in
    modify_dp (set_i2c_hdmi adap) ;;;
    match adap with
    | None => drm_info I2C_interface_not_found
    | Some _ => ret tt
    end ;;;
    of_node_put i2c_node
  | None => ret tt
  end ;;;
  v <- rd_of_read_u32 node "max-pclock" DEF_PIXCLK ;;
  modify_config (set_max_pclock v) ;;;
  v <- rd_of_read_u32 node "max-horz-res" DEF_MAX_HORZ ;;
  modify_config (set_max_horz_res v) ;;;
  v <- rd_of_read_u32 node "max-vert-res" DEF_MAX_VERT ;;
  modify_config (set_max_vert_res v) ;;;
  v <- rd_of_read_u32 node "pref-horz-res" DEF_PREF_HORZ ;;
  modify_config (set_pref_horz_res v) ;;;
  v <- rd_of_read_u32 node "pref-vert-res" DEF_PREF_VERT ;;
  modify_config (set_pref_vert_res v) ;;;
  ret 0.

(** [rd_drm_hdmi_encoder_init]: the slave encoder's [slave_priv] and
    [slave_funcs] are pointed at [dp] and at the callbacks above, then
    [dp->encoder] is set and the device tree is read. *)
Definition rd_drm_hdmi_encoder_init (enc : drm_encoder) : kernel Z :=
  modify_dp (set_encoder (Some enc)) ;;;
  rd_drm_hdmi_parse_of.

Definition rd_drm_hdmi_pm_suspend : kernel Z :=
  ret 0.

Definition rd_drm_hdmi_pm_resume : kernel Z :=
  dp <- dev_get_drvdata ;;
  match dp.(encoder) with
  | None => oops
  | Some enc =>
    drm_helper_hpd_irq_event enc.(drm_dev) ;;;
    ret 0
  end.

End Driver.

(** [rd_drm_hdmi_probe]: [devm_kzalloc] hands out zeroed memory or NULL. *)
Definition rd_drm_hdmi_probe (pdev_dev : device) (kzalloc_ok : bool)
  : Z * option rd_drm_hdmi :=
  if kzalloc_ok then
    (0, Some {| encoder := None; dev := pdev_dev;
                config := {| max_pclock := 0; max_horz_res := 0;
                             max_vert_res := 0; pref_horz_res := 0;
                             pref_vert_res := 0 |};
                i2c_hdmi := None |})
  else (- ENOMEM, None).

(** The state after one more call into the kernel has been recorded. *)
Definition logged (e : kevent) (s : kstate) : kstate :=
  {| drvdata := s.(drvdata); connector := s.(connector);
     klog := s.(klog) ++ [e] |}.

(** ** The validator as the specification words it *)

Module Spec.

Inductive reason :=
  | BadMode
  | ClockTooHigh
  | ResolutionTooLarge
  | InterlaceUnsupported.

Inductive verdict :=
  | Accept
  | Reject (r : reason).

Record DisplayMode := {
  pixel_clock_khz : Z;
  horizontal_display : Z;
  vertical_display : Z;
  interlaced : bool;
  double_clock : bool;
  stereo_3d : bool;
}.

(** Ordered rule evaluation, first match wins. *)
Definition validate (mode : option DisplayMode)
    (envelope : rd_drm_hdmi_config) : verdict :=
  match mode with
  | None => Reject BadMode
  | Some mode =>
    if mode.(pixel_clock_khz) >? envelope.(max_pclock)
    then Reject ClockTooHigh
    else if (mode.(horizontal_display) >? envelope.(max_horz_res)) ||
            (mode.(vertical_display) >? envelope.(max_vert_res))
    then Reject ResolutionTooLarge
    else if mode.(interlaced) then Reject InterlaceUnsupported
    else if mode.(double_clock) || mode.(stereo_3d) then Reject BadMode
    else Accept
  end.

End Spec.

Definition verdict_of (r : drm_mode_status) : Spec.verdict :=
  match r with
  | MODE_OK => Spec.Accept
  | MODE_CLOCK_HIGH => Spec.Reject Spec.ClockTooHigh
  | MODE_PANEL => Spec.Reject Spec.ResolutionTooLarge
  | MODE_NO_INTERLACE => Spec.Reject Spec.InterlaceUnsupported
  | MODE_BAD => Spec.Reject Spec.BadMode
  end.

Section ModeView.
Context {F : drm_mode_flags}.

(** The three feature bits of a mode as booleans. *)
Definition interlaced (m : drm_display_mode) : bool :=
  flag_set m.(flags) DRM_MODE_FLAG_INTERLACE.
Definition double_clock (m : drm_display_mode) : bool :=
  flag_set m.(flags) DRM_MODE_FLAG_DBLCLK.
Definition stereo_3d (m : drm_display_mode) : bool :=
  flag_set m.(flags) DRM_MODE_FLAG_3D_MASK.

Definition display_mode_of (m : drm_display_mode) : Spec.DisplayMode :=
  {| Spec.pixel_clock_khz := m.(clock);
     Spec.horizontal_display := m.(hdisplay);
     Spec.vertical_display := m.(vdisplay);
     Spec.interlaced := interlaced m;
     Spec.double_clock := double_clock m;
     Spec.stereo_3d := stereo_3d m |}.

End ModeView.

(** A mode whose clock and display sizes are non-negative [int]s. *)
Definition mode_timing_in_range (m : drm_display_mode) : Prop :=
  0 <= m.(clock) <= INT_MAX /\
  0 <= m.(hdisplay) <= INT_MAX /\
  0 <= m.(vdisplay) <= INT_MAX.

(** ** Concrete instances *)

(** The flag bits of the DRM user-space API. *)
Definition linux_mode_flags : drm_mode_flags :=
  {| DRM_MODE_FLAG_INTERLACE := Z.shiftl 1 4;
     DRM_MODE_FLAG_DBLCLK := Z.shiftl 1 12;
     DRM_MODE_FLAG_3D_MASK := Z.shiftl 31 14 |}.

(** Sync polarity bits, which the driver never looks at. *)
Definition DRM_MODE_FLAG_PHSYNC : Z := Z.shiftl 1 0.
Definition DRM_MODE_FLAG_NHSYNC : Z := Z.shiftl 1 1.
Definition DRM_MODE_FLAG_PVSYNC : Z := Z.shiftl 1 2.
Definition DRM_MODE_FLAG_NVSYNC : Z := Z.shiftl 1 3.

Definition mk_mode (clk hd hss hse ht vd vss vse vt fl : Z) : drm_display_mode :=
  {| clock := clk; hdisplay := hd; hsync_start := hss; hsync_end := hse;
     htotal := ht; vdisplay := vd; vsync_start := vss; vsync_end := vse;
     vtotal := vt; flags := fl |}.

Definition mode_640x480 : drm_display_mode :=
  mk_mode 25175 640 656 752 800 480 490 492 525
          (Z.lor DRM_MODE_FLAG_NHSYNC DRM_MODE_FLAG_NVSYNC).
Definition mode_800x600 : drm_display_mode :=
  mk_mode 40000 800 840 968 1056 600 601 605 628 DRM_MODE_FLAG_PHSYNC.
Definition mode_1024x768 : drm_display_mode :=
  mk_mode 65000 1024 1048 1184 1344 768 771 777 806
          (Z.lor DRM_MODE_FLAG_NHSYNC DRM_MODE_FLAG_NVSYNC).
Definition mode_1280x720 : drm_display_mode :=
  mk_mode 74250 1280 1390 1430 1650 720 725 730 750 DRM_MODE_FLAG_PHSYNC.
Definition mode_1920x1080 : drm_display_mode :=
  mk_mode 148500 1920 2008 2052 2200 1080 1084 1089 1125 DRM_MODE_FLAG_PHSYNC.
Definition mode_1920x1080_reduced : drm_display_mode :=
  mk_mode 148500 1920 1968 2000 2080 1080 1083 1088 1111
          (Z.lor DRM_MODE_FLAG_PHSYNC DRM_MODE_FLAG_PVSYNC).

(** A timing table with five standard 60 Hz entries. *)
Definition sample_dmt_modes : list drm_display_mode :=
  [mode_640x480; mode_800x600; mode_1024x768; mode_1280x720; mode_1920x1080].

(** A board without a display on its (only) I2C bus. *)
Definition sample_platform : platform :=
  {| drm_dmt_modes := sample_dmt_modes;
     ddc_probe_result := fun _ => 0;
     edid_on_bus := fun _ => None;
     edid_declared_modes := fun _ => [];
     i2c_adapter_of_node := {[ 7%N := 1%N ]} |}.

Definition empty_connector : drm_connector :=
  {| probed_modes := []; edid_blob := None; preferred := None |}.

Definition default_config : rd_drm_hdmi_config :=
  {| max_pclock := 150000; max_horz_res := 1920; max_vert_res := 1080;
     pref_horz_res := 1280; pref_vert_res := 720 |}.

(** The state right after a successful probe of a device with node [np]. *)
Definition probed_state (np : device_node) : kstate :=
  {| drvdata := {| encoder := None; dev := {| of_node := np |};
                   config := {| max_pclock := 0; max_horz_res := 0;
                                max_vert_res := 0; pref_horz_res := 0;
                                pref_vert_res := 0 |};
                   i2c_hdmi := None |};
     connector := empty_connector;
     klog := [] |}.

(** An initialised encoder with the given limits and EDID bus. *)
Definition encoder_state (cfg : rd_drm_hdmi_config)
    (i2c : option i2c_adapter) : kstate :=
  {| drvdata := {| encoder := Some {| drm_dev := 0%N |};
                   dev := {| of_node := {| properties := ∅; phandles := ∅ |} |};
                   config := cfg;
                   i2c_hdmi := i2c |};
     connector := empty_connector;
     klog := [] |}.

(** * Properties *)

(** ** Bit masks *)

Lemma flag_set_lor fl a b :
  flag_set fl (Z.lor a b) = flag_set fl a || flag_set fl b.
Proof.
  unfold flag_set. rewrite Z.land_lor_distr_r.
  destruct (Z.eqb_spec (Z.land fl a) 0) as [Ha | Ha];
    destruct (Z.eqb_spec (Z.land fl b) 0) as [Hb | Hb]; simpl;
    destruct (Z.eqb_spec (Z.lor (Z.land fl a) (Z.land fl b)) 0) as [H | H];
    try reflexivity; exfalso.
  - apply H. apply Z.lor_eq_0_iff. split; assumption.
  - apply Z.lor_eq_0_iff in H. tauto.
  - apply Z.lor_eq_0_iff in H. tauto.
  - apply Z.lor_eq_0_iff in H. tauto.
Qed.

(** ** The validator *)

Section ModeValidFacts.
Context {F : drm_mode_flags}.

(** The status computed from the envelope and the mode alone. *)
Definition mode_status (cfg : rd_drm_hdmi_config)
    (mode : option drm_display_mode) : drm_mode_status :=
  match mode with
  | None => MODE_BAD
  | Some m =>
    if to_u32 m.(clock) >? cfg.(max_pclock) then MODE_CLOCK_HIGH
    else if (to_u32 m.(hdisplay) >? cfg.(max_horz_res)) ||
            (to_u32 m.(vdisplay) >? cfg.(max_vert_res))
    then MODE_PANEL
    else if interlaced m then MODE_NO_INTERLACE
    else if double_clock m || stereo_3d m then MODE_BAD
    else MODE_OK
  end.

(** The call never faults, touches nothing, and its value depends on
    the envelope and the mode only. *)
Lemma mode_valid_run (mode : option drm_display_mode) (s : kstate) :
  rd_drm_hdmi_mode_valid mode s
  = Done (mode_status s.(drvdata).(config) mode) s.
Proof.
  unfold rd_drm_hdmi_mode_valid, mode_status, bind, to_dp, gets, ret.
  destruct mode as [m |]; [| reflexivity].
  unfold interlaced, double_clock, stereo_3d.
  rewrite flag_set_lor.
  repeat match goal with
         | |- context [if ?b then _ else _] => destruct b
         end; reflexivity.
Qed.

(** On modes with sane timings the driver agrees with the ordered rules
    of the specification. *)
Lemma mode_status_refines (cfg : rd_drm_hdmi_config) (m : drm_display_mode) :
  mode_timing_in_range m ->
  verdict_of (mode_status cfg (Some m))
  = Spec.validate (Some (display_mode_of m)) cfg.
Proof.
  intros (Hc & Hh & Hv). unfold mode_status, Spec.validate. simpl.
  rewrite !to_u32_id by (unfold INT_MAX, U32_MAX in *; lia).
  repeat match goal with
         | |- context [if ?b then _ else _] => destruct b
         end; reflexivity.
Qed.

Lemma mode_status_null (cfg : rd_drm_hdmi_config) :
  mode_status cfg None = MODE_BAD.
Proof. reflexivity. Qed.

End ModeValidFacts.

Ltac timing_in_range :=
  unfold mode_timing_in_range, INT_MAX; simpl; lia.

(** C1.  For a mode with non-negative [int] timings, the validator applies
    its rejection rules in a fixed order and the first match wins: a pixel
    clock above [max_pclock] gives [MODE_CLOCK_HIGH]; otherwise a display
    size above [max_horz_res] or [max_vert_res] gives [MODE_PANEL];
    otherwise an interlaced mode gives [MODE_NO_INTERLACE]; otherwise a
    double-clock or stereo-3D mode gives [MODE_BAD]; otherwise the mode is
    accepted with [MODE_OK].  Each rule only asks that the earlier ones did
    not match, so the earlier reason is returned when violations coexist,
    and a mode within all limits with the three flags clear is accepted. *)
Theorem mode_valid_first_match `{F : drm_mode_flags}
    (s : kstate) (m : drm_display_mode) :
  mode_timing_in_range m ->
  exists r : drm_mode_status,
    rd_drm_hdmi_mode_valid (Some m) s = Done r s /\
    let cfg := s.(drvdata).(config) in
    (m.(clock) > cfg.(max_pclock) -> r = MODE_CLOCK_HIGH) /\
    (m.(clock) <= cfg.(max_pclock) ->
     m.(hdisplay) > cfg.(max_horz_res) \/ m.(vdisplay) > cfg.(max_vert_res) ->
     r = MODE_PANEL) /\
    (m.(clock) <= cfg.(max_pclock) ->
     m.(hdisplay) <= cfg.(max_horz_res) ->
     m.(vdisplay) <= cfg.(max_vert_res) ->
     interlaced m = true ->
     r = MODE_NO_INTERLACE) /\
    (m.(clock) <= cfg.(max_pclock) ->
     m.(hdisplay) <= cfg.(max_horz_res) ->
     m.(vdisplay) <= cfg.(max_vert_res) ->
     interlaced m = false ->
     double_clock m = true \/ stereo_3d m = true ->
     r = MODE_BAD) /\
    (m.(clock) <= cfg.(max_pclock) ->
     m.(hdisplay) <= cfg.(max_horz_res) ->
     m.(vdisplay) <= cfg.(max_vert_res) ->
     interlaced m = false ->
     double_clock m = false ->
     stereo_3d m = false ->
     r = MODE_OK).
Proof.
  intros (Hc & Hh & Hv).
  exists (mode_status s.(drvdata).(config) (Some m)).
  split; [apply mode_valid_run |].
  cbv zeta. unfold mode_status.
  rewrite !to_u32_id by (unfold INT_MAX, U32_MAX in *; lia).
  set (cfg := config (drvdata s)).
  destruct (Z.gtb_spec (clock m) (max_pclock cfg));
    destruct (Z.gtb_spec (hdisplay m) (max_horz_res cfg));
    destruct (Z.gtb_spec (vdisplay m) (max_vert_res cfg));
    destruct (interlaced m); destruct (double_clock m);
    destruct (stereo_3d m); simpl;
    repeat split; intros; first [reflexivity | lia | intuition congruence].
Qed.

Lemma mode_valid_first_match_witness :
  mode_timing_in_range mode_1920x1080 /\
  exists r : drm_mode_status,
    rd_drm_hdmi_mode_valid (F := linux_mode_flags) (Some mode_1920x1080)
      (encoder_state default_config None)
    = Done r (encoder_state default_config None) /\
    r = MODE_OK.
Proof.
  split; [timing_in_range |].
  destruct (mode_valid_first_match (F := linux_mode_flags)
              (encoder_state default_config None) mode_1920x1080)
    as (r & Hrun & _ & _ & _ & _ & Hok); [timing_in_range |].
  exists r. split; [exact Hrun |].
  apply Hok; first [reflexivity | simpl; lia].
Defined.

(** The scenarios of the specification, on the default envelope. *)
Example scenario_1080p_accepted :
  rd_drm_hdmi_mode_valid (F := linux_mode_flags) (Some mode_1920x1080)
    (encoder_state default_config None)
  = Done MODE_OK (encoder_state default_config None).
Proof. reflexivity. Qed.

Example scenario_clock_297000 :
  rd_drm_hdmi_mode_valid (F := linux_mode_flags)
    (Some (mk_mode 297000 1920 2008 2052 2200 1080 1084 1089 1125 0))
    (encoder_state default_config None)
  = Done MODE_CLOCK_HIGH (encoder_state default_config None).
Proof. reflexivity. Qed.

Example scenario_1080i :
  rd_drm_hdmi_mode_valid (F := linux_mode_flags)
    (Some (mk_mode 74250 1920 2008 2052 2200 1080 1084 1094 1125
                   (Z.shiftl 1 4)))
    (encoder_state default_config None)
  = Done MODE_NO_INTERLACE (encoder_state default_config None).
Proof. reflexivity. Qed.

(** Coexisting violations: too fast, too large, interlaced and 3D. *)
Example scenario_all_violations :
  rd_drm_hdmi_mode_valid (F := linux_mode_flags)
    (Some (mk_mode 297000 3840 4016 4104 4400 2160 2168 2178 2250
                   (Z.lor (Z.shiftl 1 4) (Z.shiftl 1 14))))
    (encoder_state default_config None)
  = Done MODE_CLOCK_HIGH (encoder_state default_config None).
Proof. reflexivity. Qed.

(** The timings are [int]s compared as [u32]s, so outside the range of
    [mode_timing_in_range] a negative clock counts as a very high one. *)
Example negative_clock_is_clock_high :
  rd_drm_hdmi_mode_valid (F := linux_mode_flags)
    (Some (mk_mode (-1) 640 656 752 800 480 490 492 525 0))
    (encoder_state default_config None)
  = Done MODE_CLOCK_HIGH (encoder_state default_config None).
Proof. reflexivity. Qed.

(** C7.  The validator is total and pure: on every state and for every
    argument, the NULL mode included, it returns a status and leaves the
    state as it found it; for the NULL mode the status is [MODE_BAD],
    whatever the envelope and the flag bits are. *)
Theorem mode_valid_total_null_bad `{F : drm_mode_flags} (s : kstate) :
  (forall mode : option drm_display_mode,
      exists r, rd_drm_hdmi_mode_valid mode s = Done r s) /\
  rd_drm_hdmi_mode_valid None s = Done MODE_BAD s.
Proof.
  split.
  - intros mode. eexists. apply mode_valid_run.
  - reflexivity.
Qed.

(** C9.  Two modes that agree on the pixel clock, on both display sizes
    and on the interlace, double-clock and stereo-3D bits get the same
    status from two encoders with the same envelope: the sync timings, the
    other flag bits, the EDID bus, the connector and the log do not count. *)
Theorem mode_valid_depends_on_six_fields `{F : drm_mode_flags}
    (s1 s2 : kstate) (m1 m2 : drm_display_mode) :
  s1.(drvdata).(config) = s2.(drvdata).(config) ->
  m1.(clock) = m2.(clock) ->
  m1.(hdisplay) = m2.(hdisplay) ->
  m1.(vdisplay) = m2.(vdisplay) ->
  interlaced m1 = interlaced m2 ->
  double_clock m1 = double_clock m2 ->
  stereo_3d m1 = stereo_3d m2 ->
  result (rd_drm_hdmi_mode_valid (Some m1) s1)
  = result (rd_drm_hdmi_mode_valid (Some m2) s2).
Proof.
  intros Hcfg Hc Hh Hv Hi Hd H3.
  rewrite !mode_valid_run. simpl.
  rewrite Hcfg, Hc, Hh, Hv, Hi, Hd, H3. reflexivity.
Qed.

Lemma mode_valid_depends_on_six_fields_witness :
  mode_1920x1080 <> mode_1920x1080_reduced /\
  encoder_state default_config None <> encoder_state default_config (Some 1%N) /\
  result (rd_drm_hdmi_mode_valid (F := linux_mode_flags)
            (Some mode_1920x1080) (encoder_state default_config None))
  = result (rd_drm_hdmi_mode_valid (F := linux_mode_flags)
              (Some mode_1920x1080_reduced)
              (encoder_state default_config (Some 1%N))).
Proof.
  split; [discriminate |]. split; [discriminate |].
  apply (mode_valid_depends_on_six_fields (F := linux_mode_flags));
    reflexivity.
Defined.

(** C10.  Mode fixup accepts every mode: it returns [true], hands back the
    adjusted mode as it was passed in, and leaves the encoder, the
    connector and the log unchanged. *)
Theorem mode_fixup_true_and_inert
    (s : kstate) (mode adjusted_mode : drm_display_mode) :
  rd_drm_hdmi_mode_fixup mode adjusted_mode s = Done (true, adjusted_mode) s.
Proof. reflexivity. Qed.

(** ** Probe and encoder initialisation *)

Lemma probe_gives_probed_state (d : device) :
  rd_drm_hdmi_probe d true = (0, Some (probed_state d.(of_node)).(drvdata)).
Proof. destruct d. reflexivity. Qed.

Lemma probe_out_of_memory (d : device) :
  rd_drm_hdmi_probe d false = (- ENOMEM, None).
Proof. reflexivity. Qed.

(** ** Power and lifecycle callbacks *)

(** Number of hot-plug notifications in a log. *)
Fixpoint hpd_count (l : list kevent) : nat :=
  match l with
  | [] => 0
  | HPD_IRQ_EVENT _ :: l' => S (hpd_count l')
  | _ :: l' => hpd_count l'
  end.

Lemma hpd_count_app l1 l2 :
  hpd_count (l1 ++ l2) = (hpd_count l1 + hpd_count l2)%nat.
Proof.
  induction l1 as [| e l1 IH]; simpl; [reflexivity |].
  destruct e; simpl; rewrite IH; reflexivity.
Qed.

Lemma pm_resume_run (s : kstate) (enc : drm_encoder) :
  s.(drvdata).(encoder) = Some enc ->
  rd_drm_hdmi_pm_resume s = Done 0 (logged (HPD_IRQ_EVENT enc.(drm_dev)) s).
Proof.
  intros He. unfold rd_drm_hdmi_pm_resume, bind, dev_get_drvdata, gets.
  rewrite He. reflexivity.
Qed.

(** The power callbacks.  On an initialised encoder (one whose
    [dp->encoder] is set), resume returns 0 after exactly one hot-plug
    notification, for the encoder's DRM device, and changes nothing else.
    On every encoder,
    suspend returns 0 and the dpms, save and restore callbacks return, all
    four leaving the encoder, the connector and the log as they were (so
    without any notification). *)
Theorem pm_and_power_callbacks (s : kstate) (dpms : Z) :
  (forall enc : drm_encoder,
      s.(drvdata).(encoder) = Some enc ->
      exists s',
        rd_drm_hdmi_pm_resume s = Done 0 s' /\
        s'.(klog) = s.(klog) ++ [HPD_IRQ_EVENT enc.(drm_dev)] /\
        hpd_count s'.(klog) = S (hpd_count s.(klog)) /\
        s'.(drvdata) = s.(drvdata) /\
        s'.(connector) = s.(connector)) /\
  rd_drm_hdmi_pm_suspend s = Done 0 s /\
  rd_drm_hdmi_dpms dpms s = Done tt s /\
  rd_drm_hdmi_save s = Done tt s /\
  rd_drm_hdmi_restore s = Done tt s.
Proof.
  split; [| repeat split].
  intros enc He.
  exists (logged (HPD_IRQ_EVENT enc.(drm_dev)) s).
  split; [apply pm_resume_run; assumption |].
  simpl. rewrite hpd_count_app. simpl.
  repeat split; lia.
Qed.

Lemma pm_and_power_callbacks_witness :
  rd_drm_hdmi_pm_resume (encoder_state default_config None)
  = Done 0 (logged (HPD_IRQ_EVENT 0%N) (encoder_state default_config None)) /\
  rd_drm_hdmi_pm_suspend (encoder_state default_config None)
  = Done 0 (encoder_state default_config None).
Proof.
  destruct (pm_and_power_callbacks (encoder_state default_config None) 3)
    as (Hres & Hsus & _).
  split; [| exact Hsus].
  destruct (Hres {| drm_dev := 0%N |} eq_refl)
    as (s' & Hrun & Hlog & _ & Hdp & Hconn).
  rewrite Hrun. f_equal.
  destruct s' as [dp c l]. simpl in *. subst. reflexivity.
Defined.

(** C8 does not hold of the code.  The PM callbacks are live as soon as
    probe has returned, while [dp->encoder] stays NULL until the encoder
    is initialised: in the state probe leaves behind, for any device-tree
    node, resume dereferences the NULL pointer instead of returning 0 with
    one hot-plug notification. *)
Lemma pm_resume_before_encoder_init (np : device_node) :
  rd_drm_hdmi_pm_resume (probed_state np) = Oops.
Proof. reflexivity. Qed.

(** ** Connection detection *)

Section DetectFacts.
Variable hw : platform.

Lemma detect_run_no_bus (s : kstate) :
  s.(drvdata).(i2c_hdmi) = None ->
  rd_drm_hdmi_detect hw s = Done connector_status_unknown s.
Proof.
  intros Hb. unfold rd_drm_hdmi_detect, bind, to_dp, gets.
  rewrite Hb. reflexivity.
Qed.

Lemma detect_run_bus (s : kstate) (adap : i2c_adapter) :
  s.(drvdata).(i2c_hdmi) = Some adap ->
  rd_drm_hdmi_detect hw s
  = Done (if hw.(ddc_probe_result) adap =? 0
          then connector_status_disconnected
          else connector_status_connected)
         (logged (DDC_PROBE adap) s).
Proof.
  intros Hb. unfold rd_drm_hdmi_detect, bind, to_dp, gets.
  rewrite Hb. unfold drm_probe_ddc, bind, emit, modify, ret. simpl.
  destruct (ddc_probe_result hw adap =? 0); reflexivity.
Qed.

End DetectFacts.

(** C3.  Without an EDID bus, detection returns [unknown] and touches
    nothing.  With a bus it probes the DDC once on that bus and returns
    [connected] exactly when the probe's result is non-zero and
    [disconnected] exactly when it is zero; the probe is the only effect
    (encoder and connector are unchanged, the log gains the probe only). *)
Theorem detect_status (hw : platform) (s : kstate) :
  (s.(drvdata).(i2c_hdmi) = None ->
   rd_drm_hdmi_detect hw s = Done connector_status_unknown s) /\
  (forall adap : i2c_adapter,
      s.(drvdata).(i2c_hdmi) = Some adap ->
      exists st s',
        rd_drm_hdmi_detect hw s = Done st s' /\
        (st = connector_status_connected <-> hw.(ddc_probe_result) adap <> 0) /\
        (st = connector_status_disconnected <-> hw.(ddc_probe_result) adap = 0) /\
        s'.(drvdata) = s.(drvdata) /\
        s'.(connector) = s.(connector) /\
        s'.(klog) = s.(klog) ++ [DDC_PROBE adap]).
Proof.
  split; [apply detect_run_no_bus |].
  intros adap Hb. do 2 eexists.
  split; [apply detect_run_bus; exact Hb |].
  destruct (Z.eqb_spec (ddc_probe_result hw adap) 0) as [H0 | H0];
    repeat split; try reflexivity; try congruence; try discriminate.
Qed.

Lemma detect_status_witness :
  rd_drm_hdmi_detect sample_platform (encoder_state default_config None)
  = Done connector_status_unknown (encoder_state default_config None) /\
  exists s',
    rd_drm_hdmi_detect sample_platform
      (encoder_state default_config (Some 1%N))
    = Done connector_status_disconnected s'.
Proof.
  split.
  - apply (detect_status sample_platform (encoder_state default_config None)).
    reflexivity.
  - destruct (proj2 (detect_status sample_platform
                       (encoder_state default_config (Some 1%N))) 1%N eq_refl)
      as (st & s' & Hrun & _ & Hdis & _).
    exists s'. rewrite Hrun. f_equal. apply Hdis. reflexivity.
Defined.

(** ** Mode enumeration *)

Section GetModesFacts.
Variable hw : platform.

Lemma get_modes_run_no_edid (s : kstate) (adap : i2c_adapter) :
  s.(drvdata).(i2c_hdmi) = Some adap ->
  hw.(edid_on_bus) adap = None ->
  rd_drm_hdmi_get_modes hw s = Done 0 (logged (EDID_READ adap) s).
Proof.
  intros Hb He. unfold rd_drm_hdmi_get_modes, bind, to_dp, gets.
  rewrite Hb. unfold drm_get_edid, bind, emit, modify, ret. simpl.
  rewrite He. reflexivity.
Qed.

End GetModesFacts.

(** C4.  With an EDID bus configured, when the EDID read fails or returns
    no data, mode enumeration returns 0, which is a count and not a
    negative errno, adds no mode to the connector and sets no preferred
    mode: apart from the read attempt in the log nothing changes. *)
Theorem get_modes_edid_unavailable (hw : platform) (s : kstate)
    (adap : i2c_adapter) :
  s.(drvdata).(i2c_hdmi) = Some adap ->
  hw.(edid_on_bus) adap = None ->
  exists s',
    rd_drm_hdmi_get_modes hw s = Done 0 s' /\
    s'.(connector) = s.(connector) /\
    s'.(drvdata) = s.(drvdata) /\
    s'.(klog) = s.(klog) ++ [EDID_READ adap].
Proof.
  intros Hb He. eexists. split.
  - apply get_modes_run_no_edid; eassumption.
  - repeat split.
Qed.

Lemma get_modes_edid_unavailable_witness :
  exists s',
    rd_drm_hdmi_get_modes sample_platform
      (encoder_state default_config (Some 1%N)) = Done 0 s' /\
    s'.(connector).(probed_modes) = [] /\
    s'.(connector).(preferred) = None.
Proof.
  destruct (get_modes_edid_unavailable sample_platform
              (encoder_state default_config (Some 1%N)) 1%N eq_refl eq_refl)
    as (s' & Hrun & Hconn & _).
  exists s'. rewrite Hconn. repeat split. exact Hrun.
Defined.

(** A mode within [h] x [v]. *)
Definition mode_bounded (h v : Z) (m : drm_display_mode) : Prop :=
  m.(hdisplay) <= h /\ m.(vdisplay) <= v.

Lemma mode_fits_bounded h v m : mode_fits h v m = true <-> mode_bounded h v m.
Proof.
  unfold mode_fits, mode_bounded.
  rewrite Bool.andb_true_iff, !Z.leb_le. reflexivity.
Qed.

Lemma u32_to_int_id v : v <= INT_MAX -> u32_to_int v = v.
Proof.
  intros Hv. unfold u32_to_int.
  destruct (Z.leb_spec v INT_MAX); [reflexivity | lia].
Qed.

Lemma u32_to_int_le v : u32_to_int v <= v.
Proof.
  unfold u32_to_int, U32_MODULUS.
  destruct (Z.leb_spec v INT_MAX); lia.
Qed.

Section NoEdidFacts.
Variable hw : platform.

(** The modes synthesized for an envelope: the limits reach the helper
    as [int]s. *)
Definition synthesized (cfg : rd_drm_hdmi_config) : list drm_display_mode :=
  List.filter (mode_fits (u32_to_int cfg.(max_horz_res))
                         (u32_to_int cfg.(max_vert_res)))
              hw.(drm_dmt_modes).

Lemma get_modes_run_no_bus (s : kstate) :
  s.(drvdata).(i2c_hdmi) = None ->
  rd_drm_hdmi_get_modes hw s
  = Done (Z.of_nat (length (synthesized s.(drvdata).(config))))
      {| drvdata := s.(drvdata);
         connector :=
           {| probed_modes := s.(connector).(probed_modes)
                              ++ synthesized s.(drvdata).(config);
              edid_blob := s.(connector).(edid_blob);
              preferred :=
                Some (u32_to_int s.(drvdata).(config).(pref_horz_res),
                      u32_to_int s.(drvdata).(config).(pref_vert_res)) |};
         klog := s.(klog) |}.
Proof.
  intros Hb. unfold rd_drm_hdmi_get_modes, bind, to_dp, gets.
  rewrite Hb. reflexivity.
Qed.

Lemma synthesized_In cfg m :
  In m (synthesized cfg) <->
  In m hw.(drm_dmt_modes) /\
  mode_bounded (u32_to_int cfg.(max_horz_res))
               (u32_to_int cfg.(max_vert_res)) m.
Proof.
  unfold synthesized. rewrite List.filter_In, mode_fits_bounded. reflexivity.
Qed.

(** Whatever the conversion does, a synthesized mode is within the
    envelope's own limits. *)
Lemma synthesized_bounded cfg m :
  In m (synthesized cfg) ->
  In m hw.(drm_dmt_modes) /\
  mode_bounded cfg.(max_horz_res) cfg.(max_vert_res) m.
Proof.
  intros Hm. apply synthesized_In in Hm. destruct Hm as [Ht [Hh Hv]].
  pose proof (u32_to_int_le cfg.(max_horz_res)).
  pose proof (u32_to_int_le cfg.(max_vert_res)).
  split; [exact Ht |]. unfold mode_bounded. lia.
Qed.

(** For limits up to [INT_MAX] the synthesized modes are the entries of
    the table that fit the envelope's limits, in table order. *)
Lemma synthesized_small_limits cfg :
  cfg.(max_horz_res) <= INT_MAX ->
  cfg.(max_vert_res) <= INT_MAX ->
  synthesized cfg
  = List.filter (mode_fits cfg.(max_horz_res) cfg.(max_vert_res))
                hw.(drm_dmt_modes).
Proof.
  intros Hh Hv. unfold synthesized.
  rewrite !u32_to_int_id by assumption. reflexivity.
Qed.

End NoEdidFacts.

(** A panel smaller than every entry of the timing table. *)
Definition small_panel_node : device_node :=
  {| properties :=
       {[ "realdigital,max-horz-res"%string := 320;
          "realdigital,max-vert-res"%string := 240;
          "realdigital,pref-horz-res"%string := 320;
          "realdigital,pref-vert-res"%string := 240 ]};
     phandles := ∅ |}.

(** A device tree whose preferred width does not fit an [int]. *)
Definition huge_pref_node : device_node :=
  {| properties := {[ "realdigital,pref-horz-res"%string := 4294967295 ]};
     phandles := ∅ |}.

(** C2, as stated, fails twice.  For a 320x240 envelope read from the
    device tree and no EDID bus, mode enumeration returns 0 and the
    connector's mode list stays empty.  For a preferred width of
    4294967295, the preferred mode is set to -1 x 720, not to the
    envelope's 4294967295 x 720. *)
Lemma get_modes_noedid_empty_or_wrapped :
  (exists s0 s1,
      rd_drm_hdmi_encoder_init sample_platform {| drm_dev := 0%N |}
        (probed_state small_panel_node) = Done 0 s0 /\
      s0.(drvdata).(i2c_hdmi) = None /\
      s0.(drvdata).(config).(max_horz_res) = 320 /\
      s0.(drvdata).(config).(max_vert_res) = 240 /\
      rd_drm_hdmi_get_modes sample_platform s0 = Done 0 s1 /\
      s1.(connector).(probed_modes) = []) /\
  (exists s0 s1 r,
      rd_drm_hdmi_encoder_init sample_platform {| drm_dev := 0%N |}
        (probed_state huge_pref_node) = Done 0 s0 /\
      s0.(drvdata).(i2c_hdmi) = None /\
      s0.(drvdata).(config).(pref_horz_res) = 4294967295 /\
      s0.(drvdata).(config).(pref_vert_res) = 720 /\
      rd_drm_hdmi_get_modes sample_platform s0 = Done r s1 /\
      s1.(connector).(preferred) = Some (-1, 720) /\
      s1.(connector).(preferred) <> Some (4294967295, 720)).
Proof.
  split.
  - do 2 eexists. split; [vm_compute; reflexivity |].
    split; [reflexivity |]. split; [reflexivity |]. split; [reflexivity |].
    split; [vm_compute; reflexivity | reflexivity].
  - do 3 eexists. split; [vm_compute; reflexivity |].
    split; [reflexivity |]. split; [reflexivity |]. split; [reflexivity |].
    split; [vm_compute; reflexivity |].
    split; [reflexivity | discriminate].
Qed.

(** C2, amended.  For an envelope whose four sizes are at most [INT_MAX]
    (so that they reach the [int] parameters of the DRM helpers
    unchanged): without an EDID bus, mode enumeration adds to the connector
    exactly the entries of the standard timing table that fit in
    [max_horz_res] x [max_vert_res], in table order and each once, and
    returns their number; each of them is bounded by the envelope, and
    there is at least one exactly when the table has an entry that fits.
    The preferred mode is set to [pref_horz_res] x [pref_vert_res].  No
    EDID is read and no EDID property is set: the log and the encoder are
    unchanged. *)
Theorem get_modes_noedid_synthesized (hw : platform) (s : kstate) :
  s.(drvdata).(i2c_hdmi) = None ->
  let cfg := s.(drvdata).(config) in
  cfg.(max_horz_res) <= INT_MAX ->
  cfg.(max_vert_res) <= INT_MAX ->
  cfg.(pref_horz_res) <= INT_MAX ->
  cfg.(pref_vert_res) <= INT_MAX ->
  let ms := List.filter (mode_fits cfg.(max_horz_res) cfg.(max_vert_res))
                        hw.(drm_dmt_modes) in
  exists s' : kstate,
    rd_drm_hdmi_get_modes hw s = Done (Z.of_nat (length ms)) s' /\
    s'.(connector).(probed_modes) = s.(connector).(probed_modes) ++ ms /\
    Forall (mode_bounded cfg.(max_horz_res) cfg.(max_vert_res)) ms /\
    (forall m, In m ms <->
               In m hw.(drm_dmt_modes) /\
               mode_bounded cfg.(max_horz_res) cfg.(max_vert_res) m) /\
    (ms <> [] <->
     exists m, In m hw.(drm_dmt_modes) /\
               mode_bounded cfg.(max_horz_res) cfg.(max_vert_res) m) /\
    s'.(connector).(preferred)
    = Some (cfg.(pref_horz_res), cfg.(pref_vert_res)) /\
    s'.(connector).(edid_blob) = s.(connector).(edid_blob) /\
    s'.(klog) = s.(klog) /\
    s'.(drvdata) = s.(drvdata).
Proof.
  intros Hb cfg Hmh Hmv Hph Hpv ms.
  assert (Hms : synthesized hw cfg = ms)
    by (apply synthesized_small_limits; assumption).
  assert (HIn : forall m, In m ms <->
                          In m hw.(drm_dmt_modes) /\
                          mode_bounded cfg.(max_horz_res)
                                       cfg.(max_vert_res) m).
  { intros m. unfold ms. rewrite List.filter_In, mode_fits_bounded.
    reflexivity. }
  eexists.
  split; [rewrite (get_modes_run_no_bus hw s Hb); fold cfg; rewrite Hms;
          reflexivity |].
  cbn [connector probed_modes preferred edid_blob klog drvdata]. fold cfg.
  rewrite ?u32_to_int_id by assumption.
  split; [reflexivity |].
  split.
  { apply List.Forall_forall. intros m Hm. apply HIn in Hm. tauto. }
  split; [exact HIn |].
  split.
  { split.
    - destruct ms as [| m l] eqn:E; [congruence |].
      intros _. exists m. apply HIn. left. reflexivity.
    - intros (m & Hm). apply HIn in Hm.
      destruct ms; [destruct Hm | discriminate]. }
  repeat split.
Qed.

Lemma get_modes_noedid_synthesized_witness :
  exists s',
    rd_drm_hdmi_get_modes sample_platform (encoder_state default_config None)
    = Done 5 s' /\
    s'.(connector).(probed_modes) = sample_dmt_modes /\
    s'.(connector).(preferred) = Some (1280, 720).
Proof.
  destruct (get_modes_noedid_synthesized sample_platform
              (encoder_state default_config None) eq_refl)
    as (s' & Hrun & Hms & _ & _ & _ & Hpref & _);
    try (unfold INT_MAX; simpl; lia).
  exists s'. split; [exact Hrun |]. split; [exact Hms | exact Hpref].
Defined.

(** ** Device-tree resolution *)

(** The state after a list of calls into the kernel has been recorded. *)
Definition logged_all (es : list kevent) (s : kstate) : kstate :=
  {| drvdata := s.(drvdata); connector := s.(connector);
     klog := s.(klog) ++ es |}.

(** Value of a [u32] parameter: the stored one, or the default. *)
Definition resolved (np : device_node) (param : string) (def : Z) : Z :=
  match np.(properties) !! strcat "realdigital," param with
  | Some v => v
  | None => def
  end.

(** The message printed for a parameter, when it is missing. *)
Definition missing (np : device_node) (param : string) (def : Z)
  : list kevent :=
  match np.(properties) !! strcat "realdigital," param with
  | Some _ => []
  | None =>
    [DRM_INFO (No_value_using_default (strcat "realdigital," param) def)]
  end.

Lemma rd_of_read_u32_run (np : device_node) (param : string) (def : Z)
    (s : kstate) :
  (String.length (strcat "realdigital," param) < RD_PARAM_SIZE)%nat ->
  rd_of_read_u32 np param def s
  = Done (resolved np param def) (logged_all (missing np param def) s).
Proof.
  intros Hlen. unfold rd_of_read_u32, resolved, missing.
  destruct (Nat.leb_spec RD_PARAM_SIZE
              (String.length (strcat "realdigital," param))) as [H | _];
    [lia |].
  unfold of_property_read_u32.
  destruct (properties np !! strcat "realdigital," param) as [v |]; simpl.
  - unfold ret, logged_all. destruct s; simpl. rewrite app_nil_r. reflexivity.
  - reflexivity.
Qed.

(** The five names the driver asks for fit the buffer. *)
Lemma rd_param_fits (param : string) :
  In param ["max-pclock"; "max-horz-res"; "max-vert-res";
            "pref-horz-res"; "pref-vert-res"]%string ->
  (String.length (strcat "realdigital," param) < RD_PARAM_SIZE)%nat.
Proof.
  simpl. intros [<- | [<- | [<- | [<- | [<- | []]]]]]; vm_compute; lia.
Qed.

Section ParseOfFacts.
Variable hw : platform.

(** Resolution of the optional EDID bus reference. *)
Definition resolved_i2c (dp : rd_drm_hdmi) : option i2c_adapter :=
  match dp.(dev).(of_node).(phandles) !! "realdigital,i2c-edid"%string with
  | Some i2c_node => hw.(i2c_adapter_of_node) !! i2c_node
  | None => dp.(i2c_hdmi)
  end.

Definition i2c_events (np : device_node) : list kevent :=
  match np.(phandles) !! "realdigital,i2c-edid"%string with
  | Some i2c_node =>
    match hw.(i2c_adapter_of_node) !! i2c_node with
    | Some _ => [OF_NODE_PUT i2c_node]
    | None => [DRM_INFO I2C_interface_not_found; OF_NODE_PUT i2c_node]
    end
  | None => []
  end.

Definition resolved_config (np : device_node) : rd_drm_hdmi_config :=
  {| max_pclock := resolved np "max-pclock" 150000;
     max_horz_res := resolved np "max-horz-res" 1920;
     max_vert_res := resolved np "max-vert-res" 1080;
     pref_horz_res := resolved np "pref-horz-res" 1280;
     pref_vert_res := resolved np "pref-vert-res" 720 |}.

Lemma parse_of_run (s : kstate) :
  let np := s.(drvdata).(dev).(of_node) in
  rd_drm_hdmi_parse_of hw s
  = Done 0
      {| drvdata := {| encoder := s.(drvdata).(encoder);
                       dev := s.(drvdata).(dev);
                       config := resolved_config np;
                       i2c_hdmi := resolved_i2c s.(drvdata) |};
         connector := s.(connector);
         klog := s.(klog) ++ i2c_events np
                 ++ missing np "max-pclock" 150000
                 ++ missing np "max-horz-res" 1920
                 ++ missing np "max-vert-res" 1080
                 ++ missing np "pref-horz-res" 1280
                 ++ missing np "pref-vert-res" 720 |}.
Proof.
  intros np. unfold rd_drm_hdmi_parse_of.
  unfold bind at 1. unfold to_dp, gets. fold np.
  unfold bind at 1.
  assert (Hi2c :
    match of_parse_phandle np "realdigital,i2c-edid" 0 with
    | Some i2c_node =>
      (modify_dp (set_i2c_hdmi (of_find_i2c_adapter_by_node hw i2c_node)) ;;;
       match of_find_i2c_adapter_by_node hw i2c_node with
       | Some _ => ret ()
       | None => drm_info I2C_interface_not_found
       end ;;;
       of_node_put i2c_node) s
    | None => ret () s
    end
    = Done tt {| drvdata := set_i2c_hdmi (resolved_i2c s.(drvdata))
                              s.(drvdata);
                connector := s.(connector);
                klog := s.(klog) ++ i2c_events np |}).
  { unfold of_parse_phandle, resolved_i2c, i2c_events,
      of_find_i2c_adapter_by_node. simpl. fold np.
    destruct (phandles np !! "realdigital,i2c-edid"%string) as [n |].
    - destruct (i2c_adapter_of_node hw !! n) as [a |];
        unfold of_node_put, drm_info, emit, modify_dp, modify, bind, ret;
        simpl; rewrite <- ?app_assoc; reflexivity.
    - unfold ret, set_i2c_hdmi. destruct s as [[] ? ?]; simpl.
      rewrite app_nil_r. reflexivity. }
  match goal with
  | |- match ?X with _ => _ end = _ =>
      replace X with
        (Done tt {| drvdata := set_i2c_hdmi (resolved_i2c s.(drvdata))
                                 s.(drvdata);
                    connector := s.(connector);
                    klog := s.(klog) ++ i2c_events np |})
  end.
  2:{ rewrite <- Hi2c.
      destruct (of_parse_phandle np "realdigital,i2c-edid" 0); reflexivity. }
  repeat (unfold bind at 1;
          rewrite rd_of_read_u32_run by (vm_compute; lia);
          unfold bind at 1; unfold modify_config, modify_dp, modify at 1).
  unfold ret, logged_all, resolved_config. simpl.
  rewrite <- !app_assoc. reflexivity.
Qed.

End ParseOfFacts.

(** Encoder initialisation never fails and leaves [dp->encoder] set, which
    is what resume relies on. *)
Lemma encoder_init_sets_encoder (hw : platform) (enc : drm_encoder)
    (s : kstate) :
  exists s',
    rd_drm_hdmi_encoder_init hw enc s = Done 0 s' /\
    s'.(drvdata).(encoder) = Some enc.
Proof.
  unfold rd_drm_hdmi_encoder_init, bind, modify_dp, modify.
  rewrite parse_of_run. eexists. split; reflexivity.
Qed.

Lemma resume_after_encoder_init (hw : platform) (enc : drm_encoder)
    (s : kstate) :
  exists s' s'',
    rd_drm_hdmi_encoder_init hw enc s = Done 0 s' /\
    rd_drm_hdmi_pm_resume s' = Done 0 s'' /\
    s''.(klog) = s'.(klog) ++ [HPD_IRQ_EVENT enc.(drm_dev)].
Proof.
  destruct (encoder_init_sets_encoder hw enc s) as (s' & Hinit & Henc).
  exists s', (logged (HPD_IRQ_EVENT enc.(drm_dev)) s').
  split; [exact Hinit |]. split; [| reflexivity].
  apply pm_resume_run. exact Henc.
Qed.

Lemma In_missing (e : kevent) (np : device_node) (param : string) (def : Z) :
  In e (missing np param def) <->
  np.(properties) !! strcat "realdigital," param = None /\
  e = DRM_INFO (No_value_using_default (strcat "realdigital," param) def).
Proof.
  unfold missing.
  destruct (properties np !! strcat "realdigital," param); simpl.
  - split; [tauto | intros [? _]; discriminate].
  - split; [intros [<- | []]; tauto | intros [_ ->]; tauto].
Qed.

Lemma not_In_i2c_events (hw : platform) (np : device_node)
    (key : string) (def : Z) :
  ~ In (DRM_INFO (No_value_using_default key def)) (i2c_events hw np).
Proof.
  unfold i2c_events.
  destruct (phandles np !! "realdigital,i2c-edid"%string) as [n |];
    [destruct (i2c_adapter_of_node hw !! n) |];
    simpl; intuition discriminate.
Qed.

(** What the resolver owes for one parameter: the stored value and no
    message when the key is present, the default and the message naming
    the key and the default when it is absent. *)
Definition param_resolved (np : device_node) (added : list kevent)
    (param : string) (def value : Z) : Prop :=
  let key := strcat "realdigital," param in
  match np.(properties) !! key with
  | Some v =>
    value = v /\ ~ In (DRM_INFO (No_value_using_default key def)) added
  | None =>
    value = def /\ In (DRM_INFO (No_value_using_default key def)) added
  end.

Ltac solve_param_resolved :=
  unfold param_resolved, resolved_config, resolved; simpl;
  match goal with
  | |- match ?o with _ => _ end => destruct o eqn:?
  end;
  (split; [reflexivity |]);
  rewrite !in_app_iff, !In_missing; simpl;
  first
    [ solve [intuition (try congruence; try discriminate;
                        try (eapply not_In_i2c_events; eassumption))]
    | tauto ].

(** C5.  The resolver never fails: on every device-tree node it returns 0.
    For each of the five parameters the envelope holds the stored value
    when the key [realdigital,<name>] is present, and no message is printed
    for it; when the key is absent the envelope holds the documented
    default (150000, 1920, 1080, 1280, 720) and one [DRM_INFO] names the
    key and that default.  On a node with no properties and no references
    the envelope is exactly the defaults and the log gains exactly the
    five messages, in the order the parameters are read. *)
Theorem parse_of_defaults (hw : platform) (s : kstate) :
  let np := s.(drvdata).(dev).(of_node) in
  exists (s' : kstate) (added : list kevent),
    rd_drm_hdmi_parse_of hw s = Done 0 s' /\
    s'.(klog) = s.(klog) ++ added /\
    let cfg := s'.(drvdata).(config) in
    param_resolved np added "max-pclock" 150000 cfg.(max_pclock) /\
    param_resolved np added "max-horz-res" 1920 cfg.(max_horz_res) /\
    param_resolved np added "max-vert-res" 1080 cfg.(max_vert_res) /\
    param_resolved np added "pref-horz-res" 1280 cfg.(pref_horz_res) /\
    param_resolved np added "pref-vert-res" 720 cfg.(pref_vert_res) /\
    (np.(properties) = ∅ -> np.(phandles) = ∅ ->
     cfg = {| max_pclock := 150000; max_horz_res := 1920;
              max_vert_res := 1080; pref_horz_res := 1280;
              pref_vert_res := 720 |} /\
     added =
       [DRM_INFO (No_value_using_default "realdigital,max-pclock" 150000);
        DRM_INFO (No_value_using_default "realdigital,max-horz-res" 1920);
        DRM_INFO (No_value_using_default "realdigital,max-vert-res" 1080);
        DRM_INFO (No_value_using_default "realdigital,pref-horz-res" 1280);
        DRM_INFO (No_value_using_default "realdigital,pref-vert-res" 720)]).
Proof.
  intros np. do 2 eexists.
  split; [apply parse_of_run |].
  split; [reflexivity |].
  fold np. cbv zeta. cbn [drvdata config].
  split; [solve_param_resolved |].
  split; [solve_param_resolved |].
  split; [solve_param_resolved |].
  split; [solve_param_resolved |].
  split; [solve_param_resolved |].
  intros Hp Hh.
  unfold resolved_config, resolved, missing, i2c_events.
  rewrite Hp, Hh, !lookup_empty. split; reflexivity.
Qed.

Definition empty_node : device_node := {| properties := ∅; phandles := ∅ |}.

Lemma parse_of_defaults_witness :
  exists s',
    rd_drm_hdmi_parse_of sample_platform (probed_state empty_node)
    = Done 0 s' /\
    s'.(drvdata).(config) = default_config /\
    length s'.(klog) = 5%nat.
Proof.
  destruct (parse_of_defaults sample_platform (probed_state empty_node))
    as (s' & added & Hrun & Hlog & _ & _ & _ & _ & _ & Hdef).
  destruct (Hdef eq_refl eq_refl) as [Hcfg Hadded].
  exists s'. split; [exact Hrun |]. split; [exact Hcfg |].
  rewrite Hlog, Hadded. reflexivity.
Defined.

(** A field of the envelope is positive exactly when its key is absent or
    stores a positive value. *)
Lemma resolved_pos (np : device_node) (param : string) (def : Z) :
  0 < def ->
  (0 < resolved np param def <->
   forall v, np.(properties) !! strcat "realdigital," param = Some v -> 0 < v).
Proof.
  intros Hdef. unfold resolved.
  destruct (properties np !! strcat "realdigital," param) as [v |].
  - split; [intros H v' [= <-]; exact H | intros H; apply H; reflexivity].
  - split; [intros _ v' [=] | intros _; exact Hdef].
Qed.

(** A device tree that sets the pixel clock limit to zero. *)
Definition zero_clock_node : device_node :=
  {| properties := {[ "realdigital,max-pclock"%string := 0 ]};
     phandles := ∅ |}.

(** C6, as stated, fails: a stored zero goes into the envelope as it is. *)
Lemma parse_of_stores_zero :
  exists s',
    rd_drm_hdmi_parse_of sample_platform (probed_state zero_clock_node)
    = Done 0 s' /\
    s'.(drvdata).(config).(max_pclock) = 0 /\
    ~ 0 < s'.(drvdata).(config).(max_pclock).
Proof.
  eexists. split; [vm_compute; reflexivity |].
  split; [reflexivity | simpl; lia].
Qed.

(** C6, amended.  When no property of the node stores zero, that is when
    every stored value is positive, every field of the envelope produced by
    the resolver is strictly positive: absent keys take the positive
    defaults and present keys their stored value. *)
Theorem parse_of_positive_fields (hw : platform) (s : kstate) :
  (forall key v,
      s.(drvdata).(dev).(of_node).(properties) !! key = Some v -> 0 < v) ->
  exists s',
    rd_drm_hdmi_parse_of hw s = Done 0 s' /\
    0 < s'.(drvdata).(config).(max_pclock) /\
    0 < s'.(drvdata).(config).(max_horz_res) /\
    0 < s'.(drvdata).(config).(max_vert_res) /\
    0 < s'.(drvdata).(config).(pref_horz_res) /\
    0 < s'.(drvdata).(config).(pref_vert_res).
Proof.
  intros Hpos. eexists. split; [apply parse_of_run |].
  cbn [drvdata config resolved_config max_pclock max_horz_res max_vert_res
       pref_horz_res pref_vert_res].
  repeat split; (apply resolved_pos; [lia | intros v; apply Hpos]).
Qed.

(** A device tree for a 1024x768 panel. *)
Definition xga_panel_node : device_node :=
  {| properties :=
       {[ "realdigital,max-horz-res"%string := 1024;
          "realdigital,max-vert-res"%string := 768 ]};
     phandles := ∅ |}.

Lemma parse_of_positive_fields_witness :
  exists s',
    rd_drm_hdmi_parse_of sample_platform (probed_state xga_panel_node)
    = Done 0 s' /\
    0 < s'.(drvdata).(config).(max_pclock) /\
    0 < s'.(drvdata).(config).(max_horz_res) /\
    0 < s'.(drvdata).(config).(max_vert_res) /\
    0 < s'.(drvdata).(config).(pref_horz_res) /\
    0 < s'.(drvdata).(config).(pref_vert_res).
Proof.
  apply (parse_of_positive_fields sample_platform (probed_state xga_panel_node)).
  intros key v. simpl.
  rewrite lookup_insert_Some, lookup_singleton_Some.
  intros [[_ <-] | [_ [_ <-]]]; lia.
Defined.

(** * Further properties of the HDMI encoder *)

(** ** The validator *)

Definition INT_MIN : Z := - 2 ^ 31.

(** A mode whose clock and display sizes are C [int]s, of either sign. *)
Definition mode_timing_is_int (m : drm_display_mode) : Prop :=
  INT_MIN <= m.(clock) <= INT_MAX /\
  INT_MIN <= m.(hdisplay) <= INT_MAX /\
  INT_MIN <= m.(vdisplay) <= INT_MAX.

Lemma to_u32_negative x : INT_MIN <= x < 0 -> to_u32 x = x + U32_MODULUS.
Proof.
  unfold to_u32, U32_MODULUS, INT_MIN. intros Hx.
  rewrite <- (Z.mod_add x 1 (2 ^ 32)) by lia.
  apply Z.mod_small. lia.
Qed.

(** On [int]s, the unsigned comparison with a limit that is itself at
    most [INT_MAX] passes exactly for the values from 0 to the limit. *)
Lemma to_u32_within_limit x lim :
  INT_MIN <= x <= INT_MAX -> lim <= INT_MAX ->
  (to_u32 x >? lim) = false -> 0 <= x <= lim.
Proof.
  intros Hx Hlim Hcmp.
  destruct (Z.gtb_spec (to_u32 x) lim) as [| Hle]; [discriminate |].
  destruct (Z_lt_le_dec x 0) as [Hneg | Hpos].
  - rewrite to_u32_negative in Hle by lia.
    unfold U32_MODULUS, INT_MIN, INT_MAX in *. lia.
  - rewrite to_u32_id in Hle by (unfold U32_MAX, INT_MAX in *; lia). lia.
Qed.

(** Widening the envelope never turns an accepted mode into a rejected
    one: a mode accepted by an encoder is accepted by every encoder whose
    three limits are at least as large. *)
Theorem mode_valid_monotone `{F : drm_mode_flags}
    (s1 s2 : kstate) (m : drm_display_mode) :
  s1.(drvdata).(config).(max_pclock) <= s2.(drvdata).(config).(max_pclock) ->
  s1.(drvdata).(config).(max_horz_res) <= s2.(drvdata).(config).(max_horz_res) ->
  s1.(drvdata).(config).(max_vert_res) <= s2.(drvdata).(config).(max_vert_res) ->
  result (rd_drm_hdmi_mode_valid (Some m) s1) = Some MODE_OK ->
  result (rd_drm_hdmi_mode_valid (Some m) s2) = Some MODE_OK.
Proof.
  intros Hc Hh Hv. rewrite !mode_valid_run. simpl.
  set (c1 := config (drvdata s1)) in *. set (c2 := config (drvdata s2)) in *.
  destruct (Z.gtb_spec (to_u32 (clock m)) (max_pclock c1)); [discriminate |].
  destruct (Z.gtb_spec (to_u32 (hdisplay m)) (max_horz_res c1));
    [discriminate |].
  destruct (Z.gtb_spec (to_u32 (vdisplay m)) (max_vert_res c1));
    [discriminate |].
  simpl. intros Hok.
  destruct (Z.gtb_spec (to_u32 (clock m)) (max_pclock c2)); [lia |].
  destruct (Z.gtb_spec (to_u32 (hdisplay m)) (max_horz_res c2)); [lia |].
  destruct (Z.gtb_spec (to_u32 (vdisplay m)) (max_vert_res c2)); [lia |].
  exact Hok.
Qed.

Definition xga_config : rd_drm_hdmi_config :=
  {| max_pclock := 65000; max_horz_res := 1024; max_vert_res := 768;
     pref_horz_res := 1024; pref_vert_res := 768 |}.

Lemma mode_valid_monotone_witness :
  result (rd_drm_hdmi_mode_valid (F := linux_mode_flags) (Some mode_800x600)
            (encoder_state default_config (Some 1%N)))
  = Some MODE_OK.
Proof.
  apply (mode_valid_monotone (F := linux_mode_flags)
           (encoder_state xga_config None)
           (encoder_state default_config (Some 1%N)) mode_800x600);
    first [reflexivity | simpl; lia].
Defined.

(** When the three limits are at most [INT_MAX], acceptance is sound for
    every [int]-typed mode, negative values included: an accepted mode has
    a clock and display sizes between 0 and the limits, and none of the
    interlace, double-clock and stereo-3D bits set.  (A negative timing
    converts to a [u32] above [INT_MAX] and is rejected by the capacity
    rules.) *)
Theorem mode_valid_ok_sound `{F : drm_mode_flags}
    (s : kstate) (m : drm_display_mode) :
  mode_timing_is_int m ->
  s.(drvdata).(config).(max_pclock) <= INT_MAX ->
  s.(drvdata).(config).(max_horz_res) <= INT_MAX ->
  s.(drvdata).(config).(max_vert_res) <= INT_MAX ->
  result (rd_drm_hdmi_mode_valid (Some m) s) = Some MODE_OK ->
  0 <= m.(clock) <= s.(drvdata).(config).(max_pclock) /\
  0 <= m.(hdisplay) <= s.(drvdata).(config).(max_horz_res) /\
  0 <= m.(vdisplay) <= s.(drvdata).(config).(max_vert_res) /\
  interlaced m = false /\ double_clock m = false /\ stereo_3d m = false.
Proof.
  intros (Hc & Hh & Hv) Lc Lh Lv. rewrite mode_valid_run. simpl.
  set (cfg := config (drvdata s)) in *.
  destruct (to_u32 (clock m) >? max_pclock cfg) eqn:Ec; [discriminate |].
  destruct (to_u32 (hdisplay m) >? max_horz_res cfg) eqn:Eh; [discriminate |].
  destruct (to_u32 (vdisplay m) >? max_vert_res cfg) eqn:Ev; [discriminate |].
  simpl.
  destruct (interlaced m); [discriminate |].
  destruct (double_clock m); [discriminate |].
  destruct (stereo_3d m); [discriminate |].
  intros _.
  apply to_u32_within_limit in Ec; [| assumption ..].
  apply to_u32_within_limit in Eh; [| assumption ..].
  apply to_u32_within_limit in Ev; [| assumption ..].
  repeat split; lia.
Qed.

Lemma mode_valid_ok_sound_witness :
  0 <= mode_1280x720.(clock) <= 150000 /\
  0 <= mode_1280x720.(hdisplay) <= 1920 /\
  0 <= mode_1280x720.(vdisplay) <= 1080 /\
  interlaced (F := linux_mode_flags) mode_1280x720 = false /\
  double_clock (F := linux_mode_flags) mode_1280x720 = false /\
  stereo_3d (F := linux_mode_flags) mode_1280x720 = false.
Proof.
  apply (mode_valid_ok_sound (F := linux_mode_flags)
           (encoder_state default_config None) mode_1280x720);
    first [reflexivity
          | unfold mode_timing_is_int, INT_MIN, INT_MAX; simpl; lia].
Defined.

(** With a limit of [U32_MAX] the converted comparison can never fail, so
    a negative clock is let through: the bound on the limits above is
    needed. *)
Example mode_valid_unbounded_limit_accepts_negative :
  rd_drm_hdmi_mode_valid (F := linux_mode_flags)
    (Some (mk_mode (-1) 640 656 752 800 480 490 492 525 0))
    (encoder_state (set_max_pclock U32_MAX default_config) None)
  = Done MODE_OK (encoder_state (set_max_pclock U32_MAX default_config) None).
Proof. reflexivity. Qed.

(** Every status names its cause.  For a mode with non-negative [int]
    timings each of the five statuses is returned exactly in the situation
    its rule describes, so a caller can read the reason for a rejection
    off the status. *)
Theorem mode_valid_status_iff `{F : drm_mode_flags}
    (s : kstate) (m : drm_display_mode) :
  mode_timing_in_range m ->
  exists r : drm_mode_status,
    rd_drm_hdmi_mode_valid (Some m) s = Done r s /\
    let cfg := s.(drvdata).(config) in
    let within :=
      m.(clock) <= cfg.(max_pclock) /\
      m.(hdisplay) <= cfg.(max_horz_res) /\
      m.(vdisplay) <= cfg.(max_vert_res) in
    (r = MODE_CLOCK_HIGH <-> m.(clock) > cfg.(max_pclock)) /\
    (r = MODE_PANEL <->
     m.(clock) <= cfg.(max_pclock) /\
     (m.(hdisplay) > cfg.(max_horz_res) \/ m.(vdisplay) > cfg.(max_vert_res))) /\
    (r = MODE_NO_INTERLACE <-> within /\ interlaced m = true) /\
    (r = MODE_BAD <->
     within /\ interlaced m = false /\
     (double_clock m = true \/ stereo_3d m = true)) /\
    (r = MODE_OK <->
     within /\ interlaced m = false /\
     double_clock m = false /\ stereo_3d m = false).
Proof.
  intros (Hc & Hh & Hv).
  exists (mode_status s.(drvdata).(config) (Some m)).
  split; [apply mode_valid_run |].
  cbv zeta. unfold mode_status.
  rewrite !to_u32_id by (unfold INT_MAX, U32_MAX in *; lia).
  set (cfg := config (drvdata s)).
  destruct (Z.gtb_spec (clock m) (max_pclock cfg));
    destruct (Z.gtb_spec (hdisplay m) (max_horz_res cfg));
    destruct (Z.gtb_spec (vdisplay m) (max_vert_res cfg));
    destruct (interlaced m); destruct (double_clock m);
    destruct (stereo_3d m); simpl;
    repeat split; intros;
    first [reflexivity | discriminate | lia | intuition (try lia; try congruence)].
Qed.

Lemma mode_valid_status_iff_witness :
  mode_timing_in_range mode_1920x1080 /\
  exists r : drm_mode_status,
    rd_drm_hdmi_mode_valid (F := linux_mode_flags) (Some mode_1920x1080)
      (encoder_state xga_config None)
    = Done r (encoder_state xga_config None) /\
    r = MODE_CLOCK_HIGH.
Proof.
  split; [timing_in_range |].
  destruct (mode_valid_status_iff (F := linux_mode_flags)
              (encoder_state xga_config None) mode_1920x1080)
    as (r & Hrun & Hhigh & _); [timing_in_range |].
  exists r. split; [exact Hrun |].
  apply Hhigh. simpl. lia.
Defined.

(** ** Mode enumeration *)

Lemma get_modes_run_edid (hw : platform) (s : kstate) (adap : i2c_adapter)
    (e : edid) :
  s.(drvdata).(i2c_hdmi) = Some adap ->
  hw.(edid_on_bus) adap = Some e ->
  rd_drm_hdmi_get_modes hw s
  = Done (Z.of_nat (length (hw.(edid_declared_modes) e)))
      {| drvdata := s.(drvdata);
         connector :=
           {| probed_modes := s.(connector).(probed_modes)
                              ++ hw.(edid_declared_modes) e;
              edid_blob := Some e;
              preferred := s.(connector).(preferred) |};
         klog := s.(klog) ++ [EDID_READ adap; KFREE_EDID e] |}.
Proof.
  intros Hb He. unfold rd_drm_hdmi_get_modes, bind, to_dp, gets.
  rewrite Hb. unfold drm_get_edid, bind, emit, modify, ret. simpl.
  rewrite He. unfold kfree, emit, modify. simpl.
  rewrite <- app_assoc. reflexivity.
Qed.

(** With an EDID bus and a display that hands out an EDID, enumeration
    adds exactly the modes the EDID declares, in their order, and returns
    their number; the EDID becomes the connector's EDID property and is
    freed afterwards; the preferred size kept by the connector is not
    touched (no preference is injected), and the encoder is unchanged. *)
Theorem get_modes_edid_available (hw : platform) (s : kstate)
    (adap : i2c_adapter) (e : edid) :
  s.(drvdata).(i2c_hdmi) = Some adap ->
  hw.(edid_on_bus) adap = Some e ->
  exists s',
    rd_drm_hdmi_get_modes hw s
    = Done (Z.of_nat (length (hw.(edid_declared_modes) e))) s' /\
    s'.(connector).(probed_modes)
    = s.(connector).(probed_modes) ++ hw.(edid_declared_modes) e /\
    s'.(connector).(edid_blob) = Some e /\
    s'.(connector).(preferred) = s.(connector).(preferred) /\
    s'.(klog) = s.(klog) ++ [EDID_READ adap; KFREE_EDID e] /\
    s'.(drvdata) = s.(drvdata).
Proof.
  intros Hb He. eexists.
  split; [apply get_modes_run_edid; eassumption |].
  repeat split.
Qed.

(** A board with a display on I2C bus 1 whose EDID declares two modes. *)
Definition sample_edid : edid := [0; 255; 255; 255; 255; 255; 255; 0].

Definition display_platform : platform :=
  {| drm_dmt_modes := sample_dmt_modes;
     ddc_probe_result := fun a => if (a =? 1)%N then 1 else 0;
     edid_on_bus := fun a => if (a =? 1)%N then Some sample_edid else None;
     edid_declared_modes := fun _ => [mode_1920x1080_reduced; mode_1280x720];
     i2c_adapter_of_node := {[ 7%N := 1%N ]} |}.

Lemma get_modes_edid_available_witness :
  exists s',
    rd_drm_hdmi_get_modes display_platform
      (encoder_state default_config (Some 1%N)) = Done 2 s' /\
    s'.(connector).(probed_modes) = [mode_1920x1080_reduced; mode_1280x720] /\
    s'.(connector).(preferred) = None.
Proof.
  destruct (get_modes_edid_available display_platform
              (encoder_state default_config (Some 1%N)) 1%N sample_edid
              eq_refl eq_refl)
    as (s' & Hrun & Hms & _ & Hpref & _).
  exists s'. split; [exact Hrun |]. split; [exact Hms | exact Hpref].
Defined.

(** On every state and platform, enumeration returns: the value is the
    number of modes it added, hence never negative and never an errno;
    modes already on the connector stay, in place, before the new ones;
    the encoder is unchanged; and the new modes come from one source only,
    the EDID of the configured bus when there is a bus, the timing table
    (within the limits) when there is none. *)
Theorem get_modes_count_and_source (hw : platform) (s : kstate) :
  exists (r : Z) (s' : kstate) (added : list drm_display_mode),
    rd_drm_hdmi_get_modes hw s = Done r s' /\
    r = Z.of_nat (length added) /\
    0 <= r /\
    s'.(connector).(probed_modes) = s.(connector).(probed_modes) ++ added /\
    s'.(drvdata) = s.(drvdata) /\
    match s.(drvdata).(i2c_hdmi) with
    | Some adap =>
      forall m, In m added ->
                exists e, hw.(edid_on_bus) adap = Some e /\
                          In m (hw.(edid_declared_modes) e)
    | None =>
      forall m, In m added ->
                In m hw.(drm_dmt_modes) /\
                mode_bounded s.(drvdata).(config).(max_horz_res)
                             s.(drvdata).(config).(max_vert_res) m
    end.
Proof.
  destruct (i2c_hdmi (drvdata s)) as [adap |] eqn:Hb.
  - destruct (edid_on_bus hw adap) as [e |] eqn:He.
    + exists (Z.of_nat (length (edid_declared_modes hw e))).
      eexists. exists (edid_declared_modes hw e).
      split; [apply (get_modes_run_edid hw s adap e Hb He) |].
      simpl. split; [reflexivity |]. split; [lia |].
      split; [reflexivity |]. split; [reflexivity |].
      intros m Hm. exists e. split; [reflexivity | exact Hm].
    + exists 0. eexists. exists [].
      split; [apply (get_modes_run_no_edid hw s adap Hb He) |].
      simpl. rewrite app_nil_r. split; [reflexivity |]. split; [lia |].
      split; [reflexivity |]. split; [reflexivity |].
      intros m [].
  - exists (Z.of_nat (length (synthesized hw (config (drvdata s))))).
    eexists. exists (synthesized hw (config (drvdata s))).
    split; [apply (get_modes_run_no_bus hw s Hb) |].
    simpl. split; [reflexivity |]. split; [lia |].
    split; [reflexivity |]. split; [reflexivity |].
    intros m Hm. apply synthesized_bounded in Hm. exact Hm.
Qed.

(** The mode source and the validator agree on the size limits: without
    an EDID bus, no mode that enumeration adds is rejected by the same
    encoder as too large for the panel, and every added mode whose clock
    is within [max_pclock] and whose three feature bits are clear is
    accepted (for modes with non-negative [int] timings). *)
Theorem synthesized_modes_pass_size_rule `{F : drm_mode_flags}
    (hw : platform) (s : kstate) :
  s.(drvdata).(i2c_hdmi) = None ->
  exists (r : Z) (s' : kstate) (added : list drm_display_mode),
    rd_drm_hdmi_get_modes hw s = Done r s' /\
    s'.(connector).(probed_modes) = s.(connector).(probed_modes) ++ added /\
    forall m, In m added -> mode_timing_in_range m ->
      result (rd_drm_hdmi_mode_valid (Some m) s') <> Some MODE_PANEL /\
      (m.(clock) <= s.(drvdata).(config).(max_pclock) ->
       interlaced m = false -> double_clock m = false ->
       stereo_3d m = false ->
       result (rd_drm_hdmi_mode_valid (Some m) s') = Some MODE_OK).
Proof.
  intros Hb. do 2 eexists. exists (synthesized hw (config (drvdata s))).
  split; [apply get_modes_run_no_bus; assumption |].
  split; [reflexivity |].
  intros m Hm (Hc & Hh & Hv).
  apply synthesized_bounded in Hm. destruct Hm as [_ [Bh Bv]].
  rewrite mode_valid_run. simpl.
  rewrite !to_u32_id by (unfold INT_MAX, U32_MAX in *; lia).
  set (cfg := config (drvdata s)) in *.
  destruct (Z.gtb_spec (hdisplay m) (max_horz_res cfg)); [lia |].
  destruct (Z.gtb_spec (vdisplay m) (max_vert_res cfg)); [lia |].
  simpl. split.
  - destruct (clock m >? max_pclock cfg); [discriminate |].
    destruct (interlaced m); [discriminate |].
    destruct (double_clock m || stereo_3d m); discriminate.
  - intros Hclk -> -> ->.
    destruct (Z.gtb_spec (clock m) (max_pclock cfg)); [lia | reflexivity].
Qed.

Lemma synthesized_modes_pass_size_rule_witness :
  exists (r : Z) (s' : kstate),
    rd_drm_hdmi_get_modes sample_platform (encoder_state xga_config None)
    = Done r s' /\
    s'.(connector).(probed_modes)
    = [mode_640x480; mode_800x600; mode_1024x768] /\
    result (rd_drm_hdmi_mode_valid (F := linux_mode_flags)
              (Some mode_1024x768) s') = Some MODE_OK.
Proof.
  destruct (synthesized_modes_pass_size_rule (F := linux_mode_flags)
              sample_platform (encoder_state xga_config None) eq_refl)
    as (r & s' & added & Hrun & Hms & Hall).
  assert (Hs : Some s' = final_state (rd_drm_hdmi_get_modes sample_platform
                                        (encoder_state xga_config None)))
    by (rewrite Hrun; reflexivity).
  vm_compute in Hs. injection Hs as ->.
  simpl in Hms. subst added.
  exists r. eexists. split; [exact Hrun |]. split; [reflexivity |].
  apply (Hall mode_1024x768);
    first [reflexivity | timing_in_range | simpl; tauto | simpl; lia].
Defined.

(** The preferred size is not compared with the limits: when it fits an
    [int] (so that [drm_set_preferred_mode] receives it unchanged) and
    exceeds [max_horz_res] x [max_vert_res], enumeration still sets it,
    and the same encoder then accepts no mode of that size. *)
Theorem preferred_size_not_checked `{F : drm_mode_flags}
    (hw : platform) (s : kstate) :
  s.(drvdata).(i2c_hdmi) = None ->
  s.(drvdata).(config).(pref_horz_res) <= INT_MAX ->
  s.(drvdata).(config).(pref_vert_res) <= INT_MAX ->
  s.(drvdata).(config).(pref_horz_res) > s.(drvdata).(config).(max_horz_res) \/
  s.(drvdata).(config).(pref_vert_res) > s.(drvdata).(config).(max_vert_res) ->
  exists (r : Z) (s' : kstate),
    rd_drm_hdmi_get_modes hw s = Done r s' /\
    s'.(connector).(preferred)
    = Some (s.(drvdata).(config).(pref_horz_res),
            s.(drvdata).(config).(pref_vert_res)) /\
    forall m, mode_timing_in_range m ->
      m.(hdisplay) = s.(drvdata).(config).(pref_horz_res) ->
      m.(vdisplay) = s.(drvdata).(config).(pref_vert_res) ->
      result (rd_drm_hdmi_mode_valid (Some m) s') <> Some MODE_OK.
Proof.
  intros Hb Hph Hpv Hover. do 2 eexists.
  split; [apply get_modes_run_no_bus; assumption |].
  split.
  { cbn [connector preferred]. rewrite !u32_to_int_id by assumption.
    reflexivity. }
  intros m (Hc & Hh & Hv) Eh Ev.
  rewrite mode_valid_run. simpl.
  rewrite !to_u32_id by (unfold INT_MAX, U32_MAX in *; lia).
  set (cfg := config (drvdata s)) in *.
  destruct (clock m >? max_pclock cfg); [discriminate |].
  destruct (Z.gtb_spec (hdisplay m) (max_horz_res cfg));
    [simpl; discriminate |].
  destruct (Z.gtb_spec (vdisplay m) (max_vert_res cfg));
    [simpl; discriminate |].
  lia.
Qed.

Definition oversized_pref_config : rd_drm_hdmi_config :=
  {| max_pclock := 150000; max_horz_res := 1024; max_vert_res := 768;
     pref_horz_res := 1280; pref_vert_res := 720 |}.

Lemma preferred_size_not_checked_witness :
  exists (r : Z) (s' : kstate),
    rd_drm_hdmi_get_modes sample_platform
      (encoder_state oversized_pref_config None) = Done r s' /\
    s'.(connector).(preferred) = Some (1280, 720) /\
    result (rd_drm_hdmi_mode_valid (F := linux_mode_flags)
              (Some mode_1280x720) s') <> Some MODE_OK.
Proof.
  destruct (preferred_size_not_checked (F := linux_mode_flags)
              sample_platform (encoder_state oversized_pref_config None)
              eq_refl) as (r & s' & Hrun & Hpref & Hno);
    try (unfold INT_MAX; simpl; lia).
  exists r, s'. split; [exact Hrun |]. split; [exact Hpref |].
  apply Hno; first [timing_in_range | reflexivity].
Defined.

(** Above [INT_MAX] the size does not arrive: a preferred width of
    4294967295 reaches [drm_set_preferred_mode] as -1. *)
Example preferred_width_wraps :
  result (rd_drm_hdmi_get_modes sample_platform
            (encoder_state (set_pref_horz_res 4294967295 default_config) None))
  = Some 5 /\
  (connector <$> final_state
     (rd_drm_hdmi_get_modes sample_platform
        (encoder_state (set_pref_horz_res 4294967295 default_config) None)))
  = Some {| probed_modes := sample_dmt_modes; edid_blob := None;
            preferred := Some (-1, 720) |}.
Proof. split; reflexivity. Qed.

(** ** Connection detection *)

(** Detection looks at the EDID bus and at nothing else: two encoders
    with the same bus get the same status, whatever their envelopes,
    connectors and logs are; and since a call leaves the encoder as it is,
    detecting again right away gives the same status, with one more probe
    in the log when there is a bus (nothing is cached). *)
Theorem detect_depends_on_bus_only (hw : platform) (s1 s2 : kstate) :
  s1.(drvdata).(i2c_hdmi) = s2.(drvdata).(i2c_hdmi) ->
  result (rd_drm_hdmi_detect hw s1) = result (rd_drm_hdmi_detect hw s2) /\
  exists st s1' s1'',
    rd_drm_hdmi_detect hw s1 = Done st s1' /\
    rd_drm_hdmi_detect hw s1' = Done st s1'' /\
    s1''.(klog)
    = s1.(klog) ++ match s1.(drvdata).(i2c_hdmi) with
                   | Some adap => [DDC_PROBE adap; DDC_PROBE adap]
                   | None => []
                   end.
Proof.
  intros Hb.
  destruct (i2c_hdmi (drvdata s1)) as [adap |] eqn:H1.
  - rewrite (detect_run_bus hw s1 adap H1).
    rewrite (detect_run_bus hw s2 adap (eq_sym Hb)).
    split; [reflexivity |].
    do 3 eexists. split; [reflexivity |].
    split; [apply detect_run_bus; exact H1 |].
    simpl. rewrite <- app_assoc. reflexivity.
  - rewrite (detect_run_no_bus hw s1 H1).
    rewrite (detect_run_no_bus hw s2 (eq_sym Hb)).
    split; [reflexivity |].
    do 3 eexists. split; [reflexivity |].
    split; [apply detect_run_no_bus; exact H1 |].
    rewrite app_nil_r. reflexivity.
Qed.

Lemma detect_depends_on_bus_only_witness :
  encoder_state default_config (Some 1%N) <> encoder_state xga_config (Some 1%N) /\
  result (rd_drm_hdmi_detect display_platform
            (encoder_state default_config (Some 1%N)))
  = result (rd_drm_hdmi_detect display_platform
              (encoder_state xga_config (Some 1%N))).
Proof.
  split; [discriminate |].
  apply (detect_depends_on_bus_only display_platform
           (encoder_state default_config (Some 1%N))
           (encoder_state xga_config (Some 1%N))).
  reflexivity.
Defined.

(** ** Device-tree resolution *)

Fixpoint of_node_put_count (l : list kevent) : nat :=
  match l with
  | [] => 0
  | OF_NODE_PUT _ :: l' => S (of_node_put_count l')
  | _ :: l' => of_node_put_count l'
  end.

Lemma of_node_put_count_app l1 l2 :
  of_node_put_count (l1 ++ l2)
  = (of_node_put_count l1 + of_node_put_count l2)%nat.
Proof.
  induction l1 as [| e l1 IH]; simpl; [reflexivity |].
  destruct e; simpl; rewrite IH; reflexivity.
Qed.

Lemma of_node_put_count_missing np param def :
  of_node_put_count (missing np param def) = 0%nat.
Proof.
  unfold missing.
  destruct (properties np !! strcat "realdigital," param); reflexivity.
Qed.

Lemma not_In_missing_i2c np param def :
  ~ In (DRM_INFO I2C_interface_not_found) (missing np param def).
Proof. rewrite In_missing. intros [_ H]. discriminate. Qed.

(** The EDID bus reference.  When the node has no [realdigital,i2c-edid]
    reference, the resolver leaves [i2c_hdmi] as it was, puts no node and
    prints no bus message.  When it has one, [i2c_hdmi] becomes the adapter
    registered for the referenced node, or NULL when none is registered;
    the reference is put back exactly once either way, and the "interface
    not found" message is printed exactly when no adapter was found. *)
Theorem parse_of_i2c_reference (hw : platform) (s : kstate) :
  let np := s.(drvdata).(dev).(of_node) in
  exists (s' : kstate) (added : list kevent),
    rd_drm_hdmi_parse_of hw s = Done 0 s' /\
    s'.(klog) = s.(klog) ++ added /\
    match np.(phandles) !! "realdigital,i2c-edid"%string with
    | None =>
      s'.(drvdata).(i2c_hdmi) = s.(drvdata).(i2c_hdmi) /\
      of_node_put_count added = 0%nat /\
      ~ In (DRM_INFO I2C_interface_not_found) added
    | Some i2c_node =>
      s'.(drvdata).(i2c_hdmi) = hw.(i2c_adapter_of_node) !! i2c_node /\
      of_node_put_count added = 1%nat /\
      In (OF_NODE_PUT i2c_node) added /\
      (In (DRM_INFO I2C_interface_not_found) added <->
       hw.(i2c_adapter_of_node) !! i2c_node = None)
    end.
Proof.
  intros np. do 2 eexists.
  split; [apply parse_of_run |].
  split; [reflexivity |].
  fold np. cbn [drvdata i2c_hdmi].
  unfold resolved_i2c, i2c_events. fold np.
  rewrite !of_node_put_count_app, !of_node_put_count_missing.
  destruct (phandles np !! "realdigital,i2c-edid"%string) as [n |].
  - destruct (i2c_adapter_of_node hw !! n) as [a |]; simpl;
      (split; [reflexivity |]); (split; [reflexivity |]);
      (split; [tauto |]);
      rewrite !in_app_iff;
      pose proof (not_In_missing_i2c np "max-pclock" 150000);
      pose proof (not_In_missing_i2c np "max-horz-res" 1920);
      pose proof (not_In_missing_i2c np "max-vert-res" 1080);
      pose proof (not_In_missing_i2c np "pref-horz-res" 1280);
      pose proof (not_In_missing_i2c np "pref-vert-res" 720);
      split; intros; try discriminate; try tauto.
    intuition discriminate.
  - simpl. split; [reflexivity |]. split; [reflexivity |].
    rewrite !in_app_iff.
    pose proof (not_In_missing_i2c np "max-pclock" 150000).
    pose proof (not_In_missing_i2c np "max-horz-res" 1920).
    pose proof (not_In_missing_i2c np "max-vert-res" 1080).
    pose proof (not_In_missing_i2c np "pref-horz-res" 1280).
    pose proof (not_In_missing_i2c np "pref-vert-res" 720).
    tauto.
Qed.

(** The resolver overwrites all five limits and depends on the device
    tree only: two runs on encoders of the same node, whatever their
    previous envelopes, give the same envelope, and running it a second
    time changes nothing in the encoder.  It never touches the connector,
    [dp->dev] or [dp->encoder]. *)
Theorem parse_of_idempotent (hw : platform) (s : kstate) :
  exists s1 s2,
    rd_drm_hdmi_parse_of hw s = Done 0 s1 /\
    rd_drm_hdmi_parse_of hw s1 = Done 0 s2 /\
    s2.(drvdata) = s1.(drvdata) /\
    s1.(connector) = s.(connector) /\
    s1.(drvdata).(dev) = s.(drvdata).(dev) /\
    s1.(drvdata).(encoder) = s.(drvdata).(encoder) /\
    forall t t1,
      t.(drvdata).(dev).(of_node) = s.(drvdata).(dev).(of_node) ->
      rd_drm_hdmi_parse_of hw t = Done 0 t1 ->
      t1.(drvdata).(config) = s1.(drvdata).(config).
Proof.
  do 2 eexists.
  split; [apply parse_of_run |].
  split; [apply parse_of_run |].
  cbn [drvdata connector dev encoder config i2c_hdmi].
  split.
  { f_equal. unfold resolved_i2c. cbn [dev i2c_hdmi].
    destruct (phandles (of_node (dev (drvdata s))) !! "realdigital,i2c-edid"%string);
      reflexivity. }
  repeat (split; [reflexivity |]).
  intros t t1 Hnode Hrun. rewrite parse_of_run in Hrun.
  injection Hrun as <-. cbn [drvdata config]. rewrite Hnode. reflexivity.
Qed.

(** From probe to a working encoder.  On the zeroed data a successful
    probe leaves behind, encoder initialisation returns 0, sets the
    encoder, resolves the envelope from the node, and [i2c_hdmi] is an
    adapter exactly when the node's [realdigital,i2c-edid] reference names
    a registered one.  Afterwards detection answers "unknown" exactly when
    there is no such adapter, and initialisation itself produced no DDC or
    EDID traffic and no hot-plug event. *)
Theorem probe_then_encoder_init (hw : platform) (d : device)
    (enc : drm_encoder) (c : drm_connector) (dp : rd_drm_hdmi) :
  rd_drm_hdmi_probe d true = (0, Some dp) ->
  exists s',
    rd_drm_hdmi_encoder_init hw enc
      {| drvdata := dp; connector := c; klog := [] |} = Done 0 s' /\
    s'.(drvdata).(encoder) = Some enc /\
    s'.(drvdata).(config) = resolved_config d.(of_node) /\
    s'.(drvdata).(i2c_hdmi)
    = match d.(of_node).(phandles) !! "realdigital,i2c-edid"%string with
      | Some i2c_node => hw.(i2c_adapter_of_node) !! i2c_node
      | None => None
      end /\
    s'.(connector) = c /\
    (forall e, In e s'.(klog) ->
               (exists msg, e = DRM_INFO msg) \/ (exists n, e = OF_NODE_PUT n)) /\
    (result (rd_drm_hdmi_detect hw s') = Some connector_status_unknown <->
     s'.(drvdata).(i2c_hdmi) = None).
Proof.
  intros Hprobe. injection Hprobe as <-.
  unfold rd_drm_hdmi_encoder_init, bind, modify_dp, modify.
  rewrite parse_of_run. eexists. split; [reflexivity |].
  cbn [drvdata connector klog encoder config i2c_hdmi dev set_encoder].
  split; [reflexivity |]. split; [reflexivity |].
  split; [reflexivity |]. split; [reflexivity |].
  split.
  - intros e. simpl. rewrite !in_app_iff, !In_missing.
    unfold i2c_events.
    destruct (phandles (of_node d) !! "realdigital,i2c-edid"%string) as [n |];
      [destruct (i2c_adapter_of_node hw !! n) |]; simpl;
      intuition (subst; eauto).
  - unfold rd_drm_hdmi_detect, bind, to_dp, gets.
    cbn [drvdata i2c_hdmi]. unfold resolved_i2c, set_encoder.
    cbn [dev i2c_hdmi].
    destruct (phandles (of_node d) !! "realdigital,i2c-edid"%string) as [n |];
      [destruct (i2c_adapter_of_node hw !! n) as [a |] |].
    + unfold drm_probe_ddc, bind, emit, modify, ret. cbn [result].
      destruct (negb (ddc_probe_result hw a =? 0));
        split; intros; discriminate.
    + split; reflexivity.
    + split; reflexivity.
Qed.

(** A node that names the EDID bus of the sample boards. *)
Definition edid_bus_node : device_node :=
  {| properties := {[ "realdigital,max-pclock"%string := 148500 ]};
     phandles := {[ "realdigital,i2c-edid"%string := 7%N ]} |}.

Lemma probe_then_encoder_init_witness :
  exists s',
    rd_drm_hdmi_encoder_init display_platform {| drm_dev := 0%N |}
      (probed_state edid_bus_node) = Done 0 s' /\
    s'.(drvdata).(i2c_hdmi) = Some 1%N /\
    s'.(drvdata).(config).(max_pclock) = 148500 /\
    result (rd_drm_hdmi_detect display_platform s')
    <> Some connector_status_unknown.
Proof.
  destruct (probe_then_encoder_init display_platform
              {| of_node := edid_bus_node |} {| drm_dev := 0%N |}
              empty_connector _ eq_refl)
    as (s' & Hrun & _ & Hcfg & Hbus & _ & _ & Hdet).
  exists s'. split; [exact Hrun |].
  assert (Hb : i2c_hdmi (drvdata s') = Some 1%N)
    by (rewrite Hbus; vm_compute; reflexivity).
  split; [exact Hb |].
  split; [rewrite Hcfg; vm_compute; reflexivity |].
  intros Hu. apply Hdet in Hu. congruence.
Defined.

(** ** The parameter name buffer *)

Lemma string_length_append (a b : string) :
  String.length (String.append a b) = (String.length a + String.length b)%nat.
Proof. induction a as [| ch a IH]; simpl; [reflexivity | rewrite IH; reflexivity]. Qed.

(** [rd_of_read_u32] builds the property name in a 40-byte buffer that
    already holds the 12 characters of ["realdigital,"]: the call overruns
    the buffer exactly when the parameter name has 28 characters or more,
    and for every shorter name it returns, with the encoder and the
    connector untouched and at most one message added to the log. *)
Theorem rd_of_read_u32_buffer (np : device_node) (param : string) (def : Z)
    (s : kstate) :
  (rd_of_read_u32 np param def s = Oops <-> (28 <= String.length param)%nat) /\
  ((String.length param < 28)%nat ->
   exists v s',
     rd_of_read_u32 np param def s = Done v s' /\
     s'.(drvdata) = s.(drvdata) /\
     s'.(connector) = s.(connector) /\
     exists added, s'.(klog) = s.(klog) ++ added /\ (length added <= 1)%nat).
Proof.
  assert (Hlen : String.length (strcat "realdigital," param)
                 = (12 + String.length param)%nat)
    by (unfold strcat; rewrite string_length_append; reflexivity).
  split.
  - unfold rd_of_read_u32. rewrite Hlen. unfold RD_PARAM_SIZE.
    destruct (Nat.leb_spec 40 (12 + String.length param)) as [H | H].
    + split; [intros _; lia | reflexivity].
    + split; [| lia].
      unfold of_property_read_u32.
      destruct (properties np !! strcat "realdigital," param); simpl;
        discriminate.
  - intros Hshort.
    rewrite rd_of_read_u32_run by (rewrite Hlen; unfold RD_PARAM_SIZE; lia).
    do 2 eexists. split; [reflexivity |].
    split; [reflexivity |]. split; [reflexivity |].
    exists (missing np param def). split; [reflexivity |].
    unfold missing.
    destruct (properties np !! strcat "realdigital," param); simpl; lia.
Qed.

Lemma rd_of_read_u32_buffer_witness :
  rd_of_read_u32 empty_node "a-parameter-name-of-28-chars" 0
    (probed_state empty_node) = Oops /\
  exists v s',
    rd_of_read_u32 empty_node "a-parameter-name-of-27-char" 5
      (probed_state empty_node) = Done v s'.
Proof.
  split.
  - apply (rd_of_read_u32_buffer empty_node "a-parameter-name-of-28-chars" 0
             (probed_state empty_node)).
    simpl. lia.
  - destruct (proj2 (rd_of_read_u32_buffer empty_node
                       "a-parameter-name-of-27-char" 5
                       (probed_state empty_node)))
      as (v & s' & Hrun & _).
    + simpl. lia.
    + exists v, s'. exact Hrun.
Defined.

(** ** Resume and encoder initialisation *)

(** Resume dereferences [dp->encoder]: it faults exactly when the encoder
    pointer is still NULL, which is the case right after probe; after
    encoder initialisation, on any device tree and platform, it returns 0
    with the one hot-plug event. *)
Theorem pm_resume_needs_encoder_init (hw : platform) (s : kstate)
    (enc : drm_encoder) :
  (rd_drm_hdmi_pm_resume s = Oops <-> s.(drvdata).(encoder) = None) /\
  (forall d dp,
      rd_drm_hdmi_probe d true = (0, Some dp) ->
      rd_drm_hdmi_pm_resume
        {| drvdata := dp; connector := s.(connector); klog := s.(klog) |}
      = Oops) /\
  exists s' s'',
    rd_drm_hdmi_encoder_init hw enc s = Done 0 s' /\
    rd_drm_hdmi_pm_resume s' = Done 0 s'' /\
    s''.(klog) = s'.(klog) ++ [HPD_IRQ_EVENT enc.(drm_dev)].
Proof.
  split; [| split].
  - unfold rd_drm_hdmi_pm_resume, bind, dev_get_drvdata, gets.
    destruct (encoder (drvdata s)) as [e |].
    + split; discriminate.
    + split; reflexivity.
  - intros d dp [= <-]. reflexivity.
  - destruct (encoder_init_sets_encoder hw enc s) as (s' & Hinit & Henc).
    exists s', (logged (HPD_IRQ_EVENT enc.(drm_dev)) s').
    split; [exact Hinit |]. split; [| reflexivity].
    apply pm_resume_run. exact Henc.
Qed.

(** * The 7-segment display UIO driver

    [drivers/char/realdigital/axi_lite_7seg_of.c]: a platform driver that
    reserves the register window of the display and hands it to user space
    through UIO.  Its probe has two cleanup labels; the model keeps them as
    functions of their own. *)

Module Axi7seg.

Definition DRIVER_NAME : string := "axi_lite_7seg_of".

Definition EBUSY : Z := 16.

(** [struct resource], as far as the driver reads it. *)
Record resource := {
  start : Z;
  end_ : Z;
}.

(** The handler a [uio_info] points at. *)
Inductive uio_handler :=
  | AXI_LITE_7SEG_HANDLER.

(** [struct uio_info], the members the driver fills in. *)
Record uio_info := {
  name : string;
  version : string;
  mem0_addr : Z;
  mem0_size : Z;
  mem0_memtype : Z;
  handler : option uio_handler;
  irq : Z;
}.

(** [struct axi_lite_7seg_info]. *)
Record axi_lite_7seg_info := {
  res : resource;
  info : uio_info;
}.

#[global] Instance uio_handler_eq_dec : EqDecision uio_handler.
Proof. solve_decision. Defined.

#[global] Instance uio_info_eq_dec : EqDecision uio_info.
Proof. solve_decision. Defined.

(** Constants and the inline helper of the kernel headers the driver
    uses; their values are not part of the driver. *)
Class uio_abi := {
  NO_IRQ : Z;
  UIO_IRQ_NONE : Z;
  UIO_MEM_PHYS : Z;
  IRQ_HANDLED : Z;
  resource_size : resource -> Z;
}.

(** What the kernel holds on behalf of the device. *)
Record seg_state := {
  kmem_live : nat;                        (** live [kzalloc] objects *)
  iomem : list (Z * Z);                   (** reserved (start, size) regions *)
  uio_devices : list uio_info;            (** registered UIO devices *)
  seg_drvdata : option axi_lite_7seg_info;  (** [dev_get_drvdata(dev)] *)
  dev_errs : list string;                 (** [dev_err] messages *)
}.

(** What the rest of the kernel answers during one probe. *)
Record probe_env := {
  kzalloc_ok : bool;          (** [kzalloc] returns memory *)
  of_address_rc : Z;          (** return of [of_address_to_resource] *)
  of_address_res : resource;  (** the resource it stores on success *)
  mem_region_free : bool;     (** [request_mem_region] gets the region *)
  irq_mapped : Z;             (** return of [irq_of_parse_and_map] *)
  uio_register_rc : Z;        (** return of [uio_register_device] *)
}.

Definition dev_err (msg : string) (s : seg_state) : seg_state :=
  {| kmem_live := s.(kmem_live); iomem := s.(iomem);
     uio_devices := s.(uio_devices); seg_drvdata := s.(seg_drvdata);
     dev_errs := s.(dev_errs) ++ [msg] |}.

(** [kzalloc]: NULL, or one more live object. *)
Definition kzalloc (e : probe_env) (s : seg_state) : option seg_state :=
  if e.(kzalloc_ok) then
    Some {| kmem_live := S s.(kmem_live); iomem := s.(iomem);
            uio_devices := s.(uio_devices); seg_drvdata := s.(seg_drvdata);
            dev_errs := s.(dev_errs) |}
  else None.

Definition kfree (s : seg_state) : seg_state :=
  {| kmem_live := Nat.pred s.(kmem_live); iomem := s.(iomem);
     uio_devices := s.(uio_devices); seg_drvdata := s.(seg_drvdata);
     dev_errs := s.(dev_errs) |}.

(** Removal of the first entry equal to [x]. *)
Fixpoint remove_first {A} `{EqDecision A} (x : A) (l : list A) : list A :=
  match l with
  | [] => []
  | y :: l' => if decide (x = y) then l' else y :: remove_first x l'
  end.

(** [request_mem_region]: NULL, or the region is reserved. *)
Definition request_mem_region (e : probe_env) (st n : Z) (s : seg_state)
  : option seg_state :=
  if e.(mem_region_free) then
    Some {| kmem_live := s.(kmem_live); iomem := (st, n) :: s.(iomem);
            uio_devices := s.(uio_devices); seg_drvdata := s.(seg_drvdata);
            dev_errs := s.(dev_errs) |}
  else None.

Definition release_mem_region (st n : Z) (s : seg_state) : seg_state :=
  {| kmem_live := s.(kmem_live); iomem := remove_first (st, n) s.(iomem);
     uio_devices := s.(uio_devices); seg_drvdata := s.(seg_drvdata);
     dev_errs := s.(dev_errs) |}.

(** [uio_register_device]: on a non-zero return nothing is registered. *)
Definition uio_register_device (e : probe_env) (i : uio_info) (s : seg_state)
  : Z * seg_state :=
  if e.(uio_register_rc) =? 0 then
    (0, {| kmem_live := s.(kmem_live); iomem := s.(iomem);
           uio_devices := i :: s.(uio_devices);
           seg_drvdata := s.(seg_drvdata); dev_errs := s.(dev_errs) |})
  else (e.(uio_register_rc), s).

Definition uio_unregister_device (i : uio_info) (s : seg_state) : seg_state :=
  {| kmem_live := s.(kmem_live); iomem := s.(iomem);
     uio_devices := remove_first i s.(uio_devices);
     seg_drvdata := s.(seg_drvdata); dev_errs := s.(dev_errs) |}.

Definition dev_set_drvdata (d : axi_lite_7seg_info) (s : seg_state)
  : seg_state :=
  {| kmem_live := s.(kmem_live); iomem := s.(iomem);
     uio_devices := s.(uio_devices); seg_drvdata := Some d;
     dev_errs := s.(dev_errs) |}.

Section Driver.
Context {K : uio_abi}.

Definition axi_lite_7seg_handler (irq : Z) (dev_info : uio_info) : Z :=
  IRQ_HANDLED.

(** The label [noresource]. *)
Definition noresource (rc : Z) (s : seg_state) : Z * seg_state :=
  (rc, kfree s).

(** The label [failed_register], which falls through to [noresource]. *)
Definition failed_register (myinfo : axi_lite_7seg_info) (rc : Z)
    (s : seg_state) : Z * seg_state :=
  noresource rc
    (release_mem_region myinfo.(res).(start) (resource_size myinfo.(res)) s).

Definition axi_lite_7seg_of_probe (e : probe_env) (s : seg_state)
  : Z * seg_state :=
  match kzalloc e s with
  | None => (- ENOMEM, dev_err "Could not allocate local record" s)
  | Some s =>
    let rc := e.(of_address_rc) in
    if negb (rc =? 0) then
      noresource rc (dev_err "Failed to obtain device tree info" s)
    else
      let myinfo_res := e.(of_address_res) in
      match request_mem_region e myinfo_res.(start)
              (resource_size myinfo_res) s with
      | None =>
        let s := dev_err "request of_memory_region failed" s in
        let rc := - EBUSY in
        noresource rc s
      | Some s =>
        let irq := e.(irq_mapped) in
        let info :=
          {| name := DRIVER_NAME;
             version := "1.1";
             mem0_addr := myinfo_res.(start);
             mem0_size := resource_size myinfo_res;
             mem0_memtype := UIO_MEM_PHYS;
             handler := Some AXI_LITE_7SEG_HANDLER;
             irq := if (irq =? NO_IRQ) || (irq =? 0) then UIO_IRQ_NONE
                    else irq |} in
        let myinfo := {| res := myinfo_res; info := info |} in
        let '(r, s) := uio_register_device e info s in
        if negb (r =? 0) then failed_register myinfo rc s
        else (0, dev_set_drvdata myinfo s)
      end
  end.

(** [axi_lite_7seg_of_remove] reads [myinfo->res] through the pointer
    stored by probe; with no pointer stored that is a NULL dereference. *)
Definition axi_lite_7seg_of_remove (s : seg_state) : option (Z * seg_state) :=
  match s.(seg_drvdata) with
  | None => None
  | Some myinfo =>
    let s := uio_unregister_device myinfo.(info) s in
    let s := release_mem_region myinfo.(res).(start)
               (resource_size myinfo.(res)) s in
    let s := kfree s in
    Some (0, s)
  end.

End Driver.

(** The resources held for the device. *)
Definition held (s : seg_state) : nat * list (Z * Z) * list uio_info :=
  (s.(kmem_live), s.(iomem), s.(uio_devices)).

(** Every step of the probe went well. *)
Definition all_granted (e : probe_env) : Prop :=
  e.(kzalloc_ok) = true /\ e.(of_address_rc) = 0 /\
  e.(mem_region_free) = true /\ e.(uio_register_rc) = 0.

(** ** Properties of the 7-segment driver *)

Lemma remove_first_head {A} `{EqDecision A} (x : A) (l : list A) :
  remove_first x (x :: l) = l.
Proof. simpl. destruct (decide (x = x)); [reflexivity | contradiction]. Qed.

Ltac decide_refl :=
  repeat match goal with
         | |- context [decide (?x = ?x)] =>
             destruct (decide (x = x)); [| contradiction]
         end.

Ltac probe_cases e :=
  unfold axi_lite_7seg_of_probe, kzalloc, request_mem_region,
    uio_register_device, failed_register, noresource;
  destruct (kzalloc_ok e) eqn:?; simpl;
  [destruct (Z.eqb_spec (of_address_rc e) 0); simpl;
   [destruct (mem_region_free e) eqn:?; simpl;
    [destruct (Z.eqb_spec (uio_register_rc e) 0) as [Hu | Hu]; simpl;
     [| rewrite ?(proj2 (Z.eqb_neq _ _) Hu); simpl] | ] | ] | ].

(** Probe reports success exactly when the allocation, the device-tree
    lookup and the region request went well: the outcome of the UIO
    registration has no influence on the return value, which is 0 also
    when [uio_register_device] fails. *)
Theorem probe_returns_zero_iff `{K : uio_abi} (e : probe_env) (s : seg_state) :
  (axi_lite_7seg_of_probe e s).1 = 0 <->
  e.(kzalloc_ok) = true /\ e.(of_address_rc) = 0 /\
  e.(mem_region_free) = true.
Proof.
  probe_cases e; unfold ENOMEM, EBUSY; cbn [fst];
    (split;
     [ intros H; first [lia | repeat split; first [reflexivity | assumption]]
     | intros (H1 & H2 & H3);
       first [discriminate | contradiction | reflexivity | assumption] ]).
Qed.

(** A probe that does not get through all four steps holds nothing when
    it returns: the record it allocated is freed, the region it reserved is
    released, no UIO device is registered and the driver data pointer is
    as before.  Only [dev_err] messages may have been added. *)
Theorem probe_failure_holds_nothing `{K : uio_abi}
    (e : probe_env) (s : seg_state) :
  ~ all_granted e ->
  held (axi_lite_7seg_of_probe e s).2 = held s /\
  (axi_lite_7seg_of_probe e s).2.(seg_drvdata) = s.(seg_drvdata).
Proof.
  intros Hnot. unfold all_granted in Hnot.
  probe_cases e; unfold held; simpl; decide_refl;
    first [split; reflexivity | exfalso; apply Hnot; tauto].
Qed.

Definition busy_region_env : probe_env :=
  {| kzalloc_ok := true; of_address_rc := 0;
     of_address_res := {| start := 1136656384; end_ := 1136660479 |};
     mem_region_free := false; irq_mapped := 0; uio_register_rc := 0 |}.

Definition zynq_abi : uio_abi :=
  {| NO_IRQ := -1; UIO_IRQ_NONE := 0; UIO_MEM_PHYS := 1; IRQ_HANDLED := 1;
     resource_size := fun r => r.(end_) - r.(start) + 1 |}.

Definition idle_state : seg_state :=
  {| kmem_live := 0; iomem := []; uio_devices := []; seg_drvdata := None;
     dev_errs := [] |}.

Lemma probe_failure_holds_nothing_witness :
  held (axi_lite_7seg_of_probe (K := zynq_abi) busy_region_env idle_state).2
  = held idle_state /\
  (axi_lite_7seg_of_probe (K := zynq_abi) busy_region_env idle_state).2
    .(seg_drvdata) = None.
Proof.
  apply (probe_failure_holds_nothing (K := zynq_abi) busy_region_env idle_state).
  unfold all_granted. simpl. intros (_ & _ & H & _). discriminate H.
Defined.

(** A probe that gets through all four steps returns 0 and holds exactly
    one more record, the region of the device-tree resource and one more
    UIO device.  The device describes that region as its first memory
    window, and its interrupt is [UIO_IRQ_NONE] when the mapping gave 0 or
    [NO_IRQ] and the mapped number otherwise.  The driver data points at
    the record, and nothing is logged. *)
Theorem probe_success `{K : uio_abi} (e : probe_env) (s : seg_state) :
  all_granted e ->
  exists (s' : seg_state) (i : uio_info),
    axi_lite_7seg_of_probe e s = (0, s') /\
    s'.(kmem_live) = S s.(kmem_live) /\
    s'.(iomem)
    = (e.(of_address_res).(start), resource_size e.(of_address_res))
      :: s.(iomem) /\
    s'.(uio_devices) = i :: s.(uio_devices) /\
    s'.(seg_drvdata) = Some {| res := e.(of_address_res); info := i |} /\
    s'.(dev_errs) = s.(dev_errs) /\
    i.(mem0_addr) = e.(of_address_res).(start) /\
    i.(mem0_size) = resource_size e.(of_address_res) /\
    i.(mem0_memtype) = UIO_MEM_PHYS /\
    i.(handler) = Some AXI_LITE_7SEG_HANDLER /\
    (e.(irq_mapped) = 0 \/ e.(irq_mapped) = NO_IRQ -> i.(irq) = UIO_IRQ_NONE) /\
    (e.(irq_mapped) <> 0 -> e.(irq_mapped) <> NO_IRQ ->
     i.(irq) = e.(irq_mapped)).
Proof.
  intros (Hk & Hrc & Hfree & Hreg).
  unfold axi_lite_7seg_of_probe, kzalloc, request_mem_region,
    uio_register_device.
  rewrite Hk, Hrc, Hfree, Hreg. simpl.
  do 2 eexists. split; [reflexivity |]. simpl.
  repeat (split; [reflexivity |]).
  destruct (Z.eqb_spec (irq_mapped e) NO_IRQ);
    destruct (Z.eqb_spec (irq_mapped e) 0); simpl;
    split; intros; first [reflexivity | tauto | lia].
Qed.

Definition board_env : probe_env :=
  {| kzalloc_ok := true; of_address_rc := 0;
     of_address_res := {| start := 1136656384; end_ := 1136660479 |};
     mem_region_free := true; irq_mapped := -1; uio_register_rc := 0 |}.

Lemma probe_success_witness :
  exists (s' : seg_state) (i : uio_info),
    axi_lite_7seg_of_probe (K := zynq_abi) board_env idle_state = (0, s') /\
    s'.(iomem) = [(1136656384, 4096)] /\
    s'.(uio_devices) = [i] /\
    i.(irq) = 0.
Proof.
  destruct (probe_success (K := zynq_abi) board_env idle_state)
    as (s' & i & Hrun & _ & Hio & Hdev & _ & _ & _ & _ & _ & _ & Hirq & _).
  { unfold all_granted. simpl. tauto. }
  exists s', i. split; [exact Hrun |].
  split; [rewrite Hio; reflexivity |].
  split; [exact Hdev |].
  apply Hirq. right. reflexivity.
Defined.

(** Probe followed by remove gives back everything: after a successful
    probe, remove returns 0 and the live records, the reserved regions and
    the registered UIO devices are what they were before the probe. *)
Theorem probe_remove_round_trip `{K : uio_abi} (e : probe_env) (s : seg_state) :
  all_granted e ->
  exists s' s'',
    axi_lite_7seg_of_probe e s = (0, s') /\
    axi_lite_7seg_of_remove s' = Some (0, s'') /\
    held s'' = held s.
Proof.
  intros (Hk & Hrc & Hfree & Hreg).
  unfold axi_lite_7seg_of_probe, kzalloc, request_mem_region,
    uio_register_device.
  rewrite Hk, Hrc, Hfree, Hreg. simpl.
  do 2 eexists. split; [reflexivity |].
  unfold axi_lite_7seg_of_remove. cbn [seg_drvdata dev_set_drvdata].
  split; [reflexivity |].
  unfold held, kfree, release_mem_region, uio_unregister_device.
  simpl. decide_refl. reflexivity.
Qed.

Lemma probe_remove_round_trip_witness :
  exists s' s'',
    axi_lite_7seg_of_probe (K := zynq_abi) board_env idle_state = (0, s') /\
    axi_lite_7seg_of_remove (K := zynq_abi) s' = Some (0, s'') /\
    held s'' = held idle_state.
Proof.
  apply (probe_remove_round_trip (K := zynq_abi) board_env idle_state).
  unfold all_granted. simpl. tauto.
Defined.

(** When only the UIO registration fails, probe still returns 0, as for a
    success, but it has released everything and stored no driver data; on
    a device whose driver data was NULL before, a later remove then
    dereferences the NULL pointer. *)
Theorem probe_zero_without_registration `{K : uio_abi}
    (e : probe_env) (s : seg_state) :
  e.(kzalloc_ok) = true ->
  e.(of_address_rc) = 0 ->
  e.(mem_region_free) = true ->
  e.(uio_register_rc) <> 0 ->
  s.(seg_drvdata) = None ->
  exists s',
    axi_lite_7seg_of_probe e s = (0, s') /\
    held s' = held s /\
    s'.(dev_errs) = s.(dev_errs) /\
    axi_lite_7seg_of_remove s' = None.
Proof.
  intros Hk Hrc Hfree Hreg Hdata.
  unfold axi_lite_7seg_of_probe, kzalloc, request_mem_region,
    uio_register_device, failed_register, noresource.
  rewrite Hk, Hrc, Hfree. simpl.
  rewrite (proj2 (Z.eqb_neq _ _) Hreg). simpl.
  rewrite (proj2 (Z.eqb_neq _ _) Hreg). simpl.
  eexists. split; [reflexivity |].
  unfold held, axi_lite_7seg_of_remove. simpl. decide_refl.
  rewrite Hdata. repeat split.
Qed.

Definition uio_failure_env : probe_env :=
  {| kzalloc_ok := true; of_address_rc := 0;
     of_address_res := {| start := 1136656384; end_ := 1136660479 |};
     mem_region_free := true; irq_mapped := 61; uio_register_rc := -22 |}.

Lemma probe_zero_without_registration_witness :
  exists s',
    axi_lite_7seg_of_probe (K := zynq_abi) uio_failure_env idle_state
    = (0, s') /\
    s'.(uio_devices) = [] /\
    axi_lite_7seg_of_remove (K := zynq_abi) s' = None.
Proof.
  destruct (probe_zero_without_registration (K := zynq_abi)
              uio_failure_env idle_state)
    as (s' & Hrun & Hheld & _ & Hrm);
    try reflexivity; [simpl; lia |].
  exists s'. split; [exact Hrun |]. split; [| exact Hrm].
  unfold held in Hheld. injection Hheld as _ _ Hd. exact Hd.
Defined.

(** How failures are reported.  A failed allocation gives [-ENOMEM], a
    failed device-tree lookup gives the lookup's own return value, a
    refused region gives [-EBUSY]; each of them logs exactly one message.
    A failed UIO registration logs nothing. *)
Theorem probe_error_reporting `{K : uio_abi} (e : probe_env) (s : seg_state) :
  (e.(kzalloc_ok) = false ->
   axi_lite_7seg_of_probe e s
   = (- ENOMEM, dev_err "Could not allocate local record" s)) /\
  (e.(kzalloc_ok) = true -> e.(of_address_rc) <> 0 ->
   (axi_lite_7seg_of_probe e s).1 = e.(of_address_rc) /\
   (axi_lite_7seg_of_probe e s).2.(dev_errs)
   = s.(dev_errs) ++ ["Failed to obtain device tree info"%string]) /\
  (e.(kzalloc_ok) = true -> e.(of_address_rc) = 0 ->
   e.(mem_region_free) = false ->
   (axi_lite_7seg_of_probe e s).1 = - EBUSY /\
   (axi_lite_7seg_of_probe e s).2.(dev_errs)
   = s.(dev_errs) ++ ["request of_memory_region failed"%string]) /\
  (e.(kzalloc_ok) = true -> e.(of_address_rc) = 0 ->
   e.(mem_region_free) = true ->
   (axi_lite_7seg_of_probe e s).2.(dev_errs) = s.(dev_errs)).
Proof.
  probe_cases e; repeat split; intros;
    first [reflexivity | discriminate | contradiction | congruence].
Qed.

End Axi7seg.
